(** * Goose Retro BBS: a shallow embedding of [terminal-bbs/bbs.py]

    The development models the line-oriented bulletin-board server of the
    repository: the three JSON stores, the process-wide presence set
    [ONLINE], and the per-connection [Session] with its login, menu,
    message-board and bulletin handlers.  Python values are modelled as
    follows.

    - [str] is [string]; the alphabet is ASCII, which is what a terminal
      client sends.  [str.strip], [str.lower] and [int] are written out
      on that alphabet.
    - the users dictionary is a [gmap string user], the message and
      bulletin lists are [list]s, the presence set is a [gset string].
    - a JSON file is an [option]: [None] when the file does not exist.
    - coroutines become functions in a state-and-exception monad [M]
      over the shared [World] and the connection's [Session].
      Sessions are run one handler at a time: another session takes
      over from the world the first one left ([on_world]).
      Interleavings inside a handler, at its awaits, are not modelled.
    - the client's input is the list [reader] of the lines that
      [readline] returns, one per call (an end of file is the empty
      line); when the list is exhausted the connection is reset and
      [readline] raises [ConnectionResetError].  Writing never fails.
    - the [while] loops take a fuel argument; every iteration reads at
      least one line, so fuel above the number of pending lines is
      always enough ([handle_client_total]). *)

From stdpp Require Import gmap strings list sorting pretty.
From Stdlib Require Import ZArith Ascii.
From Stdlib Require OrderedTypeEx.

Local Open Scope string_scope.

(** ** Python strings *)

Module PyStr.

Definition nl : string := String (ascii_of_nat 10) "".
Definition esc : string := String (ascii_of_nat 27) "".

(** [bool(s)] for a string: non-empty. *)
Definition truthy (s : string) : bool :=
  match s with "" => false | _ => true end.

(** [c.isspace()] on ASCII: tab, newline, vertical tab, form feed,
    carriage return, the four separators 0x1c..0x1f, and space. *)
Definition isspace (c : ascii) : bool :=
  let n := nat_of_ascii c in
  ((9 <=? n)%nat && (n <=? 13)%nat) || ((28 <=? n)%nat && (n <=? 32)%nat).

Fixpoint lstrip (s : string) : string :=
  match s with
  | "" => ""
  | String c s' => if isspace c then lstrip s' else s
  end.

Fixpoint rstrip (s : string) : string :=
  match s with
  | "" => ""
  | String c s' =>
      match rstrip s' with
      | "" => if isspace c then "" else String c ""
      | r => String c r
      end
  end.

(** [s.strip()] *)
Definition strip (s : string) : string := rstrip (lstrip s).

Definition lower_char (c : ascii) : ascii :=
  let n := nat_of_ascii c in
  if (65 <=? n)%nat && (n <=? 90)%nat then ascii_of_nat (n + 32) else c.

(** [s.lower()] *)
Fixpoint lower (s : string) : string :=
  match s with
  | "" => ""
  | String c s' => String (lower_char c) (lower s')
  end.

(** [s.startswith(p)] *)
Definition startswith (p s : string) : bool := String.prefix p s.

(** [sep.join(l)] *)
Definition join (sep : string) (l : list string) : string :=
  String.concat sep l.

(** [s[:n]] *)
Definition slice_to (n : nat) (s : string) : string :=
  String.substring 0 n s.

(** [c * n] *)
Fixpoint repeat_char (c : ascii) (n : nat) : string :=
  match n with 0 => "" | S n' => String c (repeat_char c n') end.

(** [f"{s:<w}"] *)
Definition ljust (w : nat) (s : string) : string :=
  s +:+ repeat_char " " (w - String.length s).

(** [f"{s:>w}"] *)
Definition rjust (w : nat) (s : string) : string :=
  repeat_char " " (w - String.length s) +:+ s.

(** [f"{i:2d}"] for a non-negative [i] *)
Definition fmt_2d (i : nat) : string := rjust 2 (pretty i).

Definition is_digit (c : ascii) : bool :=
  let n := nat_of_ascii c in (48 <=? n)%nat && (n <=? 57)%nat.

Definition digit_val (c : ascii) : Z := Z.of_nat (nat_of_ascii c - 48).

(** Digits of a decimal literal, with single underscores allowed
    between digits.  [after_digit] tells whether the previous
    character was a digit. *)
Fixpoint int_digits (acc : Z) (after_digit : bool) (s : string) : option Z :=
  match s with
  | "" => if after_digit then Some acc else None
  | String c s' =>
      if is_digit c then int_digits (10 * acc + digit_val c) true s'
      else if Ascii.eqb c "_" && after_digit then int_digits acc false s'
      else None
  end.

(** [int(s)]: surrounding whitespace, an optional sign, decimal
    digits.  [None] is [ValueError]. *)
Definition int (s : string) : option Z :=
  match strip s with
  | String "-" d => Z.opp <$> int_digits 0 false d
  | String "+" d => int_digits 0 false d
  | d => int_digits 0 false d
  end.

End PyStr.

(** ** Python list indexing *)

Module PyList.

(** [l[i]] with Python's negative indices; [None] is [IndexError]. *)
Definition index {A} (l : list A) (i : Z) : option A :=
  let len := Z.of_nat (length l) in
  if (0 <=? i)%Z then l !! Z.to_nat i
  else if (- len <=? i)%Z then l !! Z.to_nat (len + i)
  else None.

(** [str <= str]: lexicographic on code points. *)
Definition str_le (a b : string) : Prop := String.leb a b = true.

#[global] Instance str_le_dec a b : Decision (str_le a b).
Proof. unfold str_le. apply _. Defined.

(** [sorted(s)] for a set of strings.  The elements are distinct and
    the order is total, so the sorted list does not depend on the
    sorting algorithm. *)
Definition sorted (s : gset string) : list string :=
  merge_sort str_le (elements s).

End PyList.

Import PyStr.

(** ** Data model: the records stored in the three JSON files *)

(** A value of [users.json]: [{"password": ..., "created": ...}]. *)
Record user := mkUser { password : string; created : string }.

(** An element of [messages.json].  [from] holds [self.username] as it
    is at the time of the post ([None] is JSON [null]). *)
Record message := mkMessage {
  subject : string;
  body : string;
  from : option string;
  ts : string }.

(** An element of [bulletins.json]: [{"title": ..., "body": ...}]. *)
Record bulletin := mkBulletin { title : string; bulletin_body : string }.

(** The state shared by all sessions: the three files under [DATA_DIR]
    ([None]: the file does not exist), the module-level set [ONLINE],
    and the number of clock readings made so far. *)
Record World := mkWorld {
  USERS_FILE : option (gmap string user);
  MESSAGES_FILE : option (list message);
  BULLETINS_FILE : option (list bulletin);
  ONLINE : gset string;
  clock : nat }.

(** One connection: the lines still to be read, the chunks written so
    far (oldest first), whether [writer.close()] was called, and
    [self.username]. *)
Record Session := mkSession {
  reader : list string;
  writer : list string;
  closed : bool;
  username : option string }.

Record State := mkState { world : World; session : Session }.

Definition set_users (f : option (gmap string user)) (st : State) : State :=
  let w := world st in
  mkState (mkWorld f (MESSAGES_FILE w) (BULLETINS_FILE w) (ONLINE w) (clock w))
          (session st).

Definition set_messages (f : option (list message)) (st : State) : State :=
  let w := world st in
  mkState (mkWorld (USERS_FILE w) f (BULLETINS_FILE w) (ONLINE w) (clock w))
          (session st).

Definition set_online (o : gset string) (st : State) : State :=
  let w := world st in
  mkState (mkWorld (USERS_FILE w) (MESSAGES_FILE w) (BULLETINS_FILE w) o (clock w))
          (session st).

Definition set_clock (c : nat) (st : State) : State :=
  let w := world st in
  mkState (mkWorld (USERS_FILE w) (MESSAGES_FILE w) (BULLETINS_FILE w) (ONLINE w) c)
          (session st).

Definition set_reader (r : list string) (st : State) : State :=
  let s := session st in
  mkState (world st) (mkSession r (writer s) (closed s) (username s)).

Definition set_writer (o : list string) (st : State) : State :=
  let s := session st in
  mkState (world st) (mkSession (reader s) o (closed s) (username s)).

Definition set_closed (b : bool) (st : State) : State :=
  let s := session st in
  mkState (world st) (mkSession (reader s) (writer s) b (username s)).

Definition set_username (u : option string) (st : State) : State :=
  let s := session st in
  mkState (world st) (mkSession (reader s) (writer s) (closed s) u).

(** ** The monad of session code *)

Inductive exn :=
| ConnectionResetError
| FileNotFoundError
| ValueError
| IndexError
| TypeError.

(** [OutOfFuel] is not a Python outcome: it marks a loop cut short by
    the fuel argument. *)
Inductive outcome (A : Type) :=
| Ret (a : A)
| Raise (e : exn)
| OutOfFuel.
Arguments Ret {A} a.
Arguments Raise {A} e.
Arguments OutOfFuel {A}.

Definition M (A : Type) : Type := State → outcome A * State.

#[global] Instance M_ret : MRet M := λ A a st, (Ret a, st).

#[global] Instance M_bind : MBind M := λ A B f m st,
  match m st with
  | (Ret a, st') => f a st'
  | (Raise e, st') => (Raise e, st')
  | (OutOfFuel, st') => (OutOfFuel, st')
  end.

#[global] Instance M_fmap : FMap M := λ A B f m st,
  match m st with
  | (Ret a, st') => (Ret (f a), st')
  | (Raise e, st') => (Raise e, st')
  | (OutOfFuel, st') => (OutOfFuel, st')
  end.

Definition raise {A} (e : exn) : M A := λ st, (Raise e, st).
Definition out_of_fuel {A} : M A := λ st, (OutOfFuel, st).
Definition get {A} (f : State → A) : M A := λ st, (Ret (f st), st).
Definition modify (f : State → State) : M unit := λ st, (Ret tt, f st).

(** [o] or raise [e]. *)
Definition lift_opt {A} (e : exn) (o : option A) : M A :=
  match o with Some a => mret a | None => raise e end.

(** [try: m  except Exception: h] *)
Definition try_except {A} (m h : M A) : M A := λ st,
  match m st with
  | (Raise _, st') => h st'
  | r => r
  end.

(** [try: m  except (asyncio.IncompleteReadError, ConnectionResetError): pass] *)
Definition try_except_connection (m : M unit) : M unit := λ st,
  match m st with
  | (Raise ConnectionResetError, st') => (Ret tt, st')
  | r => r
  end.

(** [try: m  finally: h].  The [finally] block runs on a normal return
    and on an exception, which is re-raised after it. *)
Definition try_finally (m h : M unit) : M unit := λ st,
  match m st with
  | (Ret _, st') => h st'
  | (Raise e, st') =>
      match h st' with
      | (Ret _, st'') => (Raise e, st'')
      | r => r
      end
  | (OutOfFuel, st') => (OutOfFuel, st')
  end.

(** ** The server *)

Section BBS.

(** [textwrap.wrap(text, width=70)] and
    [datetime.utcnow().isoformat()] at the n-th reading of the clock
    come from the Python library. *)
Variable textwrap_wrap : string → list string.
Variable utcnow_isoformat : nat → string.

Set Default Proof Using "Type".

Definition WELCOME : string :=
  nl +:+ esc +:+ "[2J" +:+ esc +:+ "[H" +:+ nl
  +:+ esc +:+ "[36m========================================" +:+ nl
  +:+ "         Goose Retro BBS (Local)" +:+ nl
  +:+ "========================================" +:+ esc +:+ "[0m" +:+ nl.

Definition MENU : string :=
  nl +:+ esc +:+ "[33mMain Menu" +:+ esc +:+ "[0m" +:+ nl
  +:+ "[1] Message Board" +:+ nl
  +:+ "[2] Bulletins" +:+ nl
  +:+ "[3] Who's Online" +:+ nl
  +:+ "[4] Logoff" +:+ nl
  +:+ "Select: ".

Definition BOARD_MENU : string :=
  nl +:+ esc +:+ "[33mMessage Board" +:+ esc +:+ "[0m" +:+ nl
  +:+ "[L] List messages" +:+ nl
  +:+ "[R] Read message" +:+ nl
  +:+ "[P] Post message" +:+ nl
  +:+ "[B] Back" +:+ nl
  +:+ "Select: ".

Definition default_bulletins : list bulletin :=
  [ mkBulletin "Welcome to Goose Retro BBS" "This is a tiny local BBS. Have fun!";
    mkBulletin "Tips" "Use netcat: nc localhost 2323" ].

(** [ensure_data()]: each file is created with its default content
    only when it does not exist. *)
Definition ensure_data (w : World) : World :=
  mkWorld
    (match USERS_FILE w with None => Some ∅ | f => f end)
    (match MESSAGES_FILE w with None => Some [] | f => f end)
    (match BULLETINS_FILE w with None => Some default_bulletins | f => f end)
    (ONLINE w) (clock w).

(** *** Stores *)

Definition load_users : M (gmap string user) := λ st,
  lift_opt FileNotFoundError (USERS_FILE (world st)) st.

Definition save_users (users : gmap string user) : M unit :=
  modify (set_users (Some users)).

Definition load_messages : M (list message) := λ st,
  lift_opt FileNotFoundError (MESSAGES_FILE (world st)) st.

Definition save_messages (msgs : list message) : M unit :=
  modify (set_messages (Some msgs)).

Definition load_bulletins : M (list bulletin) := λ st,
  lift_opt FileNotFoundError (BULLETINS_FILE (world st)) st.

(** [datetime.utcnow().isoformat()] *)
Definition utcnow : M string := λ st,
  (Ret (utcnow_isoformat (clock (world st))),
   set_clock (S (clock (world st))) st).

(** [ONLINE.add(u)] *)
Definition online_add (u : string) : M unit :=
  modify (λ st, set_online ({[u]} ∪ ONLINE (world st)) st).

(** [if self.username in ONLINE: ONLINE.remove(self.username)] *)
Definition online_discard : M unit := λ st,
  match username (session st) with
  | Some u =>
      if decide (u ∈ ONLINE (world st))
      then (Ret tt, set_online (ONLINE (world st) ∖ {[u]}) st)
      else (Ret tt, st)
  | None => (Ret tt, st)
  end.

(** *** Session *)

(** [Session.send] *)
Definition send (s : string) : M unit :=
  modify (λ st, set_writer (writer (session st) ++ [s])%list st).

(** [self.reader.readline()], decoded. *)
Definition readline : M string := λ st,
  match reader (session st) with
  | [] => (Raise ConnectionResetError, st)
  | l :: rest => (Ret l, set_reader rest st)
  end.

(** [Session.getline] *)
Definition getline (prompt : string) : M string :=
  (if truthy prompt then send prompt else mret tt) ;;
  data ← readline;
  mret (strip data).

(** [self.writer.close(); await self.writer.wait_closed()] *)
Definition writer_close : M unit := modify (set_closed true).

(** [users.get(username, {}).get('password') == password] *)
Definition password_matches
    (users : gmap string user) (name pw : string) : bool :=
  match users !! name with
  | Some r => String.eqb (password r) pw
  | None => false
  end.

(** The body of the [for _ in range(3)] loop of [Session.signin],
    with [n] iterations left, followed by the code after the loop. *)
Fixpoint signin_attempts (n : nat) : M unit :=
  match n with
  | 0 =>
      send ("Too many attempts. Bye." +:+ nl) ;;
      writer_close
  | S n' =>
      name ← getline "Username: ";
      pw ← getline "Password: ";
      users ← load_users;
      if password_matches users name pw then
        modify (set_username (Some name)) ;;
        online_add name ;;
        send (nl +:+ "Welcome back, " +:+ name +:+ "!" +:+ nl)
      else
        send ("Invalid credentials." +:+ nl) ;;
        signin_attempts n'
  end.

(** [Session.signin] *)
Definition signin : M unit :=
  send (nl +:+ esc +:+ "[34mLogin" +:+ esc +:+ "[0m" +:+ nl) ;;
  signin_attempts 3.

(** Lines 85-95 of [Session.signup], for a non-empty [name]: [true]
    when the account was created and the function returns, [false]
    when the name is taken and the loop continues. *)
Definition signup_create (name : string) : M bool :=
  users ← load_users;
  if decide (name ∈ dom users) then
    send ("Username taken. Try again." +:+ nl) ;;
    mret false
  else
    pw ← getline "Choose password: ";
    now ← utcnow;
    save_users (<[name := mkUser pw now]> users) ;;
    modify (set_username (Some name)) ;;
    online_add name ;;
    send (nl +:+ "Welcome, " +:+ name +:+ "!" +:+ nl) ;;
    mret true.

(** The [while True] loop of [Session.signup]. *)
Fixpoint signup_loop (fuel : nat) : M unit :=
  match fuel with
  | 0 => out_of_fuel
  | S fuel' =>
      name ← getline "Choose username: ";
      if truthy name then
        done ← signup_create name;
        if done : bool then mret tt else signup_loop fuel'
      else signup_loop fuel'
  end.

(** [Session.signup] *)
Definition signup (fuel : nat) : M unit :=
  send (nl +:+ esc +:+ "[32mSignup" +:+ esc +:+ "[0m" +:+ nl) ;;
  signup_loop fuel.

(** [Session.login] *)
Definition login (fuel : nat) : M unit :=
  send WELCOME ;;
  send "Do you have an account? (y/n): " ;;
  have ← lower <$> getline "";
  if startswith "n" have then signup fuel else signin.

(** *** Message board *)

(** One row of the listing:
    [f"{i:2d} {m['ts'][:19]:<20} {m['from'][:10]:<10} {m['subject']}"].
    Slicing [None] raises [TypeError]. *)
Definition board_row (i : nat) (m : message) : option string :=
  author ← from m;
  Some (fmt_2d i +:+ " " +:+ ljust 20 (slice_to 19 (ts m)) +:+ " "
        +:+ ljust 10 (slice_to 10 author) +:+ " " +:+ subject m).

(** The rows for [enumerate(msgs, i)]. *)
Fixpoint board_rows (i : nat) (msgs : list message) : option (list string) :=
  match msgs with
  | [] => Some []
  | m :: msgs' =>
      row ← board_row i m;
      rows ← board_rows (S i) msgs';
      Some (row :: rows)
  end.

Definition board_header : string :=
  nl +:+ "#  Date (UTC)           From       Subject".

(** The [l] command. *)
Definition board_list : M unit :=
  msgs ← load_messages;
  match msgs with
  | [] => send ("No messages yet." +:+ nl)
  | _ =>
      rows ← lift_opt TypeError (board_rows 1 msgs);
      send (join nl (board_header :: rows) +:+ nl)
  end.

(** [msgs[n-1]] *)
Definition read_message (msgs : list message) (n : Z) : option message :=
  PyList.index msgs (n - 1).

(** [f"{x}"] for a string or [None]. *)
Definition fmt_str (x : option string) : string := default "None" x.

Definition render_message (m : message) : string :=
  nl +:+ "Subject: " +:+ subject m +:+ nl
  +:+ "From: " +:+ fmt_str (from m) +:+ nl
  +:+ "Date: " +:+ ts m +:+ nl +:+ nl
  +:+ join nl (textwrap_wrap (body m)) +:+ nl +:+ nl.

Definition invalid_message_number : string := "Invalid message number." +:+ nl.

(** The [r] command. *)
Definition board_read : M unit :=
  idx ← getline "Read which #: ";
  try_except
    (n ← lift_opt ValueError (int idx);
     msgs ← load_messages;
     m ← lift_opt IndexError (read_message msgs n);
     send (render_message m))
    (send invalid_message_number).

(** The loop that collects the body of a post, up to a line that is
    a single dot. *)
Fixpoint read_body (fuel : nat) (lines : list string) : M (list string) :=
  match fuel with
  | 0 => out_of_fuel
  | S fuel' =>
      line ← getline "";
      if String.eqb line "." then mret lines
      else read_body fuel' (lines ++ [line])%list
  end.

(** [subj or '(no subject)'] *)
Definition subject_or_default (subj : string) : string :=
  if truthy subj then subj else "(no subject)".

(** Lines 159-168: build the record, append it and rewrite the file. *)
Definition post_message (subj : string) (lines : list string) : M unit :=
  let body := join nl lines in
  msgs ← load_messages;
  author ← get (λ st, username (session st));
  now ← utcnow;
  save_messages (msgs ++ [mkMessage (subject_or_default subj) body author now])%list ;;
  send ("Posted." +:+ nl).

(** The [p] command. *)
Definition board_post (fuel : nat) : M unit :=
  subj ← getline "Subject: ";
  send ("Enter message. End with a single '.' on its own line." +:+ nl) ;;
  lines ← read_body fuel [];
  post_message subj lines.

(** [Session.message_board] *)
Fixpoint message_board (fuel : nat) : M unit :=
  match fuel with
  | 0 => out_of_fuel
  | S fuel' =>
      ch ← (λ s, lower (strip s)) <$> getline BOARD_MENU;
      if String.eqb ch "l" then board_list ;; message_board fuel'
      else if String.eqb ch "r" then board_read ;; message_board fuel'
      else if String.eqb ch "p" then board_post fuel' ;; message_board fuel'
      else if String.eqb ch "b" then mret tt
      else send ("Unknown option." +:+ nl) ;; message_board fuel'
  end.

(** *** Bulletins *)

(** The titles for [enumerate(bulls, i)]: [f"[{i}] {b['title']}"]. *)
Fixpoint bulletin_rows (i : nat) (bulls : list bulletin) : list string :=
  match bulls with
  | [] => []
  | b :: bulls' => ("[" +:+ pretty i +:+ "] " +:+ title b) :: bulletin_rows (S i) bulls'
  end.

(** [bulls[n-1]] *)
Definition read_bulletin (bulls : list bulletin) (n : Z) : option bulletin :=
  PyList.index bulls (n - 1).

Definition render_bulletin (b : bulletin) : string :=
  nl +:+ title b +:+ nl
  +:+ repeat_char "-" (String.length (title b)) +:+ nl
  +:+ join nl (textwrap_wrap (bulletin_body b)) +:+ nl +:+ nl.

Definition invalid_selection : string := "Invalid selection." +:+ nl.

(** [Session.bulletins] *)
Definition bulletins : M unit :=
  bulls ← load_bulletins;
  let out :=
    ([nl +:+ esc +:+ "[35mBulletins" +:+ esc +:+ "[0m"]
     ++ bulletin_rows 1 bulls
     ++ ["Select number to read or B to go back: "])%list in
  sel ← (λ s, lower (strip s)) <$> getline (nl +:+ join nl out);
  if String.eqb sel "b" then mret tt
  else
    try_except
      (n ← lift_opt ValueError (int sel);
       b ← lift_opt IndexError (read_bulletin bulls n);
       send (render_bulletin b))
      (send invalid_selection).

(** *** Presence *)

(** [Session.whos_online] *)
Definition whos_online : M unit :=
  online ← get (λ st, ONLINE (world st));
  if decide (online = ∅) then send ("No one online." +:+ nl)
  else send ("Online: " +:+ join ", " (PyList.sorted online) +:+ nl).

(** [Session.logoff] *)
Definition logoff : M unit :=
  send ("Goodbye!" +:+ nl) ;;
  online_discard ;;
  writer_close.

(** *** Main menu and connection handler *)

(** [bool(self.username)] *)
Definition logged_in (st : State) : bool :=
  match username (session st) with
  | Some u => truthy u
  | None => false
  end.

(** [Session.main_menu] *)
Fixpoint main_menu (fuel : nat) : M unit :=
  match fuel with
  | 0 => out_of_fuel
  | S fuel' =>
      active ← get logged_in;
      if active : bool then
        choice ← (λ s, lower (strip s)) <$> getline MENU;
        if String.eqb choice "1" then message_board fuel' ;; main_menu fuel'
        else if String.eqb choice "2" then bulletins ;; main_menu fuel'
        else if String.eqb choice "3" then whos_online ;; main_menu fuel'
        else if String.eqb choice "4" then logoff
        else send ("Unknown selection." +:+ nl) ;; main_menu fuel'
      else mret tt
  end.

(** The [finally] block of [handle_client]. *)
Definition cleanup : M unit :=
  online_discard ;;
  try_except writer_close (mret tt).

(** [handle_client], for a fresh [Session]. *)
Definition handle_client (fuel : nat) : M unit :=
  try_finally
    (try_except_connection
       (login fuel ;;
        active ← get logged_in;
        if active : bool then main_menu fuel else mret tt))
    cleanup.

(** A fresh [Session(reader, writer)] on the shared world. *)
Definition connect (w : World) (lines : list string) : State :=
  mkState w (mkSession lines [] false None).

(** *** Sample data used to run the model *)

(** One output line per call, and a clock that numbers its readings. *)
Definition wrap_whole (s : string) : list string := [s].
Definition iso_counter (n : nat) : string := "2024-01-01T00:00:0" +:+ pretty n.

(** The world after a first start: nothing on disk, nobody online. *)
Definition fresh_world : World := ensure_data (mkWorld None None None ∅ 0).

Definition alice_store : gmap string user :=
  {[ "alice" := mkUser "pw1" "2024-01-01T00:00:00" ]}.

(** A world where alice has an account. *)
Definition alice_world : World :=
  mkWorld (Some alice_store) (Some []) (Some default_bulletins) ∅ 1.

Definition hello : message :=
  mkMessage "hi" "line1" (Some "alice") "2024-01-01T00:00:01".

Definition second : message :=
  mkMessage "re: hi" "line2" (Some "bob") "2024-01-01T00:00:02".

(** *** States reached by the handlers, used to state the properties *)

(** The state in which [login] hands over to [signup] or [signin]:
    banner and question sent, the reply consumed. *)
Definition after_question (st : State) (rest : list string) : State :=
  set_reader rest
    (set_writer
       (writer (session st) ++ [WELCOME; "Do you have an account? (y/n): "])%list
       st).


(** The state after one round of the two [signin] prompts. *)
Definition asked_credentials (st : State) (rest : list string) : State :=
  set_reader rest
    (set_writer (writer (session st) ++ ["Username: "; "Password: "])%list st).

(** The state in which [signin] returns after accepting [name]. *)
Definition welcomed_back (st : State) (rest : list string) (name : string) : State :=
  let st1 := set_online ({[name]} ∪ ONLINE (world st))
               (set_username (Some name) (asked_credentials st rest)) in
  set_writer
    (writer (session st1) ++ [nl +:+ "Welcome back, " +:+ name +:+ "!" +:+ nl])%list
    st1.

(** The state after one rejected attempt. *)
Definition rejected (st : State) (rest : list string) : State :=
  let st1 := asked_credentials st rest in
  set_writer (writer (session st1) ++ ["Invalid credentials." +:+ nl])%list st1.

(** The lines typed for a list of (username, password) attempts. *)
Definition attempt_lines (atts : list (string * string)) : list string :=
  flat_map (λ a, [a.1; a.2]) atts.

Definition attempt_fails (users : gmap string user) (a : string * string) : Prop :=
  password_matches users (strip a.1) (strip a.2) = false.

(** The state after every attempt of [atts] was rejected, with
    [rest] still to be read. *)
Definition rejected_all
    (atts : list (string * string)) (st : State) (rest : list string) : State :=
  set_reader rest
    (set_writer
       (writer (session st)
        ++ flat_map
             (λ _, ["Username: "; "Password: "; "Invalid credentials." +:+ nl])
             atts)%list
       st).

(** The state in which [signin] starts its attempts. *)
Definition signin_started (st : State) : State :=
  set_writer
    (writer (session st)
     ++ [nl +:+ esc +:+ "[34mLogin" +:+ esc +:+ "[0m" +:+ nl])%list
    st.

(** The state in which [signin] gives up. *)
Definition turned_away (st : State) : State :=
  set_closed true
    (set_writer (writer (session st) ++ ["Too many attempts. Bye." +:+ nl])%list st).

(** What the [r] command of the board answers to the typed line. *)
Definition read_reply (msgs : list message) (line : string) : string :=
  match int (strip line) with
  | Some n =>
      match read_message msgs n with
      | Some m => render_message m
      | None => invalid_message_number
      end
  | None => invalid_message_number
  end.

(** What [bulletins] answers to a selection other than [b]. *)
Definition bulletin_reply (bulls : list bulletin) (sel : string) : string :=
  match int sel with
  | Some n =>
      match read_bulletin bulls n with
      | Some b => render_bulletin b
      | None => invalid_selection
      end
  | None => invalid_selection
  end.

(** The state after a prompt, one line read, and one answer. *)
Definition answered (st : State) (rest : list string) (prompt reply : string) : State :=
  set_reader rest (set_writer (writer (session st) ++ [prompt; reply])%list st).

(** The prompt of [bulletins]. *)
Definition bulletins_prompt (bulls : list bulletin) : string :=
  nl +:+ join nl
    ([nl +:+ esc +:+ "[35mBulletins" +:+ esc +:+ "[0m"]
     ++ bulletin_rows 1 bulls
     ++ ["Select number to read or B to go back: "])%list.

(** The state in which [signup] returns after creating [name] with
    the typed password [pw], on a store that held [users]. *)
Definition account_created
    (st : State) (users : gmap string user) (rest : list string)
    (name pw : string) : State :=
  let ck := clock (world st) in
  let record := mkUser pw (utcnow_isoformat ck) in
  answered
    (set_online ({[name]} ∪ ONLINE (world st))
       (set_username (Some name)
          (set_users (Some (<[name := record]> users))
             (set_clock (S ck) st))))
    rest "Choose password: " (nl +:+ "Welcome, " +:+ name +:+ "!" +:+ nl).

(** The state after the "Choose username" prompt was answered. *)
Definition asked_username (st : State) (rest : list string) : State :=
  set_reader rest (set_writer (writer (session st) ++ ["Choose username: "])%list st).

(** The state after [signup] refused a name. *)
Definition name_taken (st : State) : State :=
  set_writer (writer (session st) ++ ["Username taken. Try again." +:+ nl])%list st.

(** The record that [post_message] builds at clock reading [ck]. *)
Definition new_message
    (author : option string) (ck : nat) (subj : string) (lines : list string)
    : message :=
  mkMessage (subject_or_default subj) (join nl lines) author (utcnow_isoformat ck).

(** The state after a post on a board that held [msgs]. *)
Definition posted
    (st : State) (msgs : list message) (subj : string) (lines : list string)
    : State :=
  let ck := clock (world st) in
  set_writer (writer (session st) ++ ["Posted." +:+ nl])%list
    (set_messages
       (Some (msgs ++ [new_message (username (session st)) ck subj lines])%list)
       (set_clock (S ck) st)).

(** A session posting several messages in a row, each given by its
    subject and its lines. *)
Fixpoint post_all (posts : list (string * list string)) : M unit :=
  match posts with
  | [] => mret tt
  | p :: posts' => post_message p.1 p.2 ;; post_all posts'
  end.

(** The records these posts produce, the first at clock reading [ck]. *)
Fixpoint new_messages
    (author : option string) (ck : nat) (posts : list (string * list string))
    : list message :=
  match posts with
  | [] => []
  | p :: posts' => new_message author ck p.1 p.2 :: new_messages author (S ck) posts'
  end.

(** The state in which the [p] command starts reading the body. *)
Definition asked_body (st : State) (rest : list string) : State :=
  answered st rest "Subject: "
    ("Enter message. End with a single '.' on its own line." +:+ nl).

(** [ONLINE] after [if self.username in ONLINE: ONLINE.remove(...)]. *)
Definition discarded (st : State) : gset string :=
  match username (session st) with
  | Some u => ONLINE (world st) ∖ {[u]}
  | None => ONLINE (world st)
  end.

(** The state after the [finally] block of [handle_client]. *)
Definition cleaned_up (st : State) : State :=
  set_closed true (set_online (discarded st) st).

(** The state after [logoff]. *)
Definition logged_off (st : State) : State :=
  cleaned_up (set_writer (writer (session st) ++ ["Goodbye!" +:+ nl])%list st).

(** The line that [whos_online] sends. *)
Definition online_line (online : gset string) : string :=
  if decide (online = ∅) then "No one online." +:+ nl
  else "Online: " +:+ join ", " (PyList.sorted online) +:+ nl.

(** A session carrying on in the world as other sessions left it. *)
Definition on_world (w : World) (st : State) : State := mkState w (session st).

(** How the state may change while a session runs: accounts are
    only added and none under the empty name, messages are only
    appended, the bulletin file is never written, and the input is
    only consumed. *)
Record evolves (st st' : State) : Prop := mkEvolves {
  ev_users :
    ∀ users, USERS_FILE (world st) = Some users →
             ∃ users', USERS_FILE (world st') = Some users' ∧ users ⊆ users';
  ev_names :
    (∀ users, USERS_FILE (world st) = Some users → users !! "" = None) →
    ∀ users', USERS_FILE (world st') = Some users' → users' !! "" = None;
  ev_messages :
    ∀ msgs, MESSAGES_FILE (world st) = Some msgs →
            ∃ more, MESSAGES_FILE (world st') = Some (msgs ++ more)%list;
  ev_bulletins : BULLETINS_FILE (world st') = BULLETINS_FILE (world st);
  ev_reader : (length (reader (session st')) ≤ length (reader (session st)))%nat
}.

(** Every run of [m] changes the state in that way. *)
Definition steps {A} (m : M A) : Prop := ∀ st, evolves st (m st).2.

(** The run did not stop for lack of fuel. *)
Definition finished {A} (r : outcome A * State) : Prop := r.1 ≠ OutOfFuel.

(** [m] never needs fuel. *)
Definition total {A} (m : M A) : Prop := ∀ st, finished (m st).

(** ** Properties *)

(** *** Running the monad *)

(** Unfold the monad and the primitive operations, then project the
    state records. *)
Ltac run_m :=
  repeat progress
    (unfold mbind, M_bind, mret, M_ret, fmap, M_fmap,
       send, modify, get, raise, out_of_fuel, lift_opt, try_except,
       readline, getline, writer_close, online_add,
       load_users, save_users, load_messages, save_messages, load_bulletins,
       utcnow,
       set_users, set_messages, set_online, set_clock,
       set_reader, set_writer, set_closed, set_username;
     cbn -[String.append strip lower int textwrap_wrap utcnow_isoformat]).

Ltac run_m_in H :=
  repeat progress
    (unfold mbind, M_bind, mret, M_ret, fmap, M_fmap,
       send, modify, get, raise, out_of_fuel, lift_opt, try_except,
       readline, getline, writer_close, online_add,
       load_users, save_users, load_messages, save_messages, load_bulletins,
       utcnow,
       set_users, set_messages, set_online, set_clock,
       set_reader, set_writer, set_closed, set_username in H;
     cbn -[String.append strip lower int textwrap_wrap utcnow_isoformat] in H).

(** Some tactics revert the whole context, and would make a proof
    depend on the library functions that its statement does not
    mention. *)
Ltac without_library := try clear textwrap_wrap; try clear utcnow_isoformat.

(** Membership goals on [ONLINE]. *)
Ltac sets := without_library; set_solver.

Lemma run_bind {A B} (m : M A) (f : A → M B) st :
  (m ≫= f) st =
  match m st with
  | (Ret a, st') => f a st'
  | (Raise e, st') => (Raise e, st')
  | (OutOfFuel, st') => (OutOfFuel, st')
  end.
Proof. reflexivity. Qed.

Lemma run_fmap {A B} (g : A → B) (m : M A) st :
  (g <$> m) st =
  match m st with
  | (Ret a, st') => (Ret (g a), st')
  | (Raise e, st') => (Raise e, st')
  | (OutOfFuel, st') => (OutOfFuel, st')
  end.
Proof. reflexivity. Qed.

Lemma run_getline prompt st line rest :
  reader (session st) = line :: rest →
  getline prompt st =
  (Ret (strip line),
   set_reader rest
     (if truthy prompt
      then set_writer (writer (session st) ++ [prompt])%list st
      else st)).
Proof.
  destruct st as [w [rd wr cl un]]; cbn; intros ->.
  unfold getline. destruct (truthy prompt); reflexivity.
Qed.

Lemma run_getline_eof prompt st :
  reader (session st) = [] →
  getline prompt st =
  (Raise ConnectionResetError,
   if truthy prompt
   then set_writer (writer (session st) ++ [prompt])%list st
   else st).
Proof.
  destruct st as [w [rd wr cl un]]; cbn; intros ->.
  unfold getline. destruct (truthy prompt); reflexivity.
Qed.

(** *** Strings *)

Lemma lower_char_is_n c :
  lower_char c = "n"%char ↔ c = "n"%char ∨ c = "N"%char.
Proof.
  split.
  - destruct c as [[] [] [] [] [] [] [] []]; vm_compute; intros H;
      first [discriminate H | now left | now right].
  - intros [-> | ->]; reflexivity.
Qed.

Lemma startswith_char a b s :
  startswith (String a "") (String b s) = bool_decide (a = b).
Proof.
  unfold startswith.
  change (String.prefix (String a "") (String b s))
    with (match ascii_dec a b with
          | left _ => String.prefix "" s
          | right _ => false
          end).
  destruct (ascii_dec a b) as [E | E].
  - rewrite bool_decide_eq_true_2 by exact E. destruct s; reflexivity.
  - rewrite bool_decide_eq_false_2 by exact E. reflexivity.
Qed.

Lemma startswith_n_lower s :
  startswith "n" (lower s) = true ↔
  ∃ tail, s = String "n" tail ∨ s = String "N" tail.
Proof.
  destruct s as [|c s].
  - split; [discriminate | intros [t [H | H]]; discriminate H].
  - change (lower (String c s)) with (String (lower_char c) (lower s)).
    rewrite startswith_char, bool_decide_eq_true.
    split.
    + intros E. symmetry in E. apply lower_char_is_n in E as [-> | ->]; eauto.
    + intros [t [H | H]]; injection H as -> _; reflexivity.
Qed.

(** *** The first prompt *)

(** C10.  At the "Do you have an account?" prompt the reply is
    stripped and lowercased; [login] continues with [signup] exactly
    when the result starts with the letter n, that is when the first
    character after the leading whitespace is n or N, and with
    [signin] on every other reply, the empty one included.  There is
    no second prompt. *)
Theorem login_routes_on_leading_n fuel st reply rest :
  reader (session st) = reply :: rest →
  login fuel st =
    (if startswith "n" (lower (strip reply))
     then signup fuel (after_question st rest)
     else signin (after_question st rest))
  ∧ (startswith "n" (lower (strip reply)) = true ↔
     ∃ tail, strip reply = String "n" tail ∨ strip reply = String "N" tail)
  ∧ (strip reply = "" → login fuel st = signin (after_question st rest)).
Proof.
  intros Hr.
  assert (Hrun : login fuel st =
    (if startswith "n" (lower (strip reply))
     then signup fuel (after_question st rest)
     else signin (after_question st rest))).
  { destruct st as [w [rd wr cl un]]; cbn in Hr; subst rd.
    unfold login, after_question. run_m.
    rewrite <- app_assoc.
    destruct (startswith "n" (lower (strip reply))); reflexivity. }
  split; [exact Hrun |]. split; [apply startswith_n_lower |].
  intros E. rewrite Hrun, E. reflexivity.
Qed.

(** *** Credentials *)

Lemma password_matches_iff users name pw :
  password_matches users name pw = true ↔
  ∃ r, users !! name = Some r ∧ password r = pw.
Proof.
  unfold password_matches. destruct (users !! name) as [r|].
  - rewrite String.eqb_eq. split; [eauto | intros [r' [[= <-] H]]; exact H].
  - split; [discriminate | intros [r [[=] _]]].
Qed.

(** One iteration of the [signin] loop on two typed lines. *)
Lemma signin_attempt n st users name pw rest :
  USERS_FILE (world st) = Some users →
  reader (session st) = name :: pw :: rest →
  signin_attempts (S n) st =
    if password_matches users (strip name) (strip pw)
    then (Ret tt, welcomed_back st rest (strip name))
    else signin_attempts n (rejected st rest).
Proof.
  destruct st as [[uf mf bf on ck] [rd wr cl un]]; cbn; intros -> ->.
  cbn [signin_attempts]. unfold welcomed_back, rejected, asked_credentials.
  destruct (password_matches users (strip name) (strip pw)) eqn:E;
    run_m; rewrite E; run_m; rewrite <- ?app_assoc; reflexivity.
Qed.

(** C4.  The check made by [signin] accepts a pair exactly when the
    store has a record under that very username whose password is
    that very string; on the session, a matching pair is welcomed
    and any other pair gets the "Invalid credentials." line. *)
Theorem verify_iff_exact_record users name pw :
  (password_matches users name pw = true ↔
   ∃ r, users !! name = Some r ∧ password r = pw)
  ∧ (∀ n st l1 l2 rest,
       USERS_FILE (world st) = Some users →
       reader (session st) = l1 :: l2 :: rest →
       strip l1 = name → strip l2 = pw →
       ((∃ r, users !! name = Some r ∧ password r = pw) →
        signin_attempts (S n) st = (Ret tt, welcomed_back st rest name))
       ∧ (¬ (∃ r, users !! name = Some r ∧ password r = pw) →
          signin_attempts (S n) st = signin_attempts n (rejected st rest))).
Proof.
  split; [apply password_matches_iff |].
  intros n st l1 l2 rest Hu Hr <- <-.
  rewrite (signin_attempt n st users l1 l2 rest Hu Hr).
  split; intros H.
  - apply password_matches_iff in H. rewrite H. reflexivity.
  - rewrite <- password_matches_iff in H.
    apply not_true_is_false in H. rewrite H. reflexivity.
Qed.

(** *** The signin loop *)

Lemma rejected_all_nil st :
  rejected_all [] st (reader (session st)) = st.
Proof.
  destruct st as [w [rd wr cl un]]. unfold rejected_all. run_m.
  rewrite app_nil_r. reflexivity.
Qed.

Lemma rejected_all_cons a failed st rest rest' :
  rejected_all failed (rejected st rest') rest = rejected_all (a :: failed) st rest.
Proof.
  destruct st as [w [rd wr cl un]]. unfold rejected_all, rejected, asked_credentials.
  run_m. rewrite <- !app_assoc. reflexivity.
Qed.

(** Rejected attempts use up iterations of the loop, one each. *)
Lemma signin_attempts_rejected users failed :
  ∀ n st rest,
    USERS_FILE (world st) = Some users →
    reader (session st) = (attempt_lines failed ++ rest)%list →
    Forall (attempt_fails users) failed →
    signin_attempts (length failed + n) st =
    signin_attempts n (rejected_all failed st rest).
Proof.
  induction failed as [|[a b] failed IH]; intros n st rest Hu Hr Hf.
  - cbn in Hr. rewrite <- Hr, rejected_all_nil. reflexivity.
  - apply Forall_cons in Hf as [Ha Hf]. unfold attempt_fails in Ha. cbn [fst snd] in Ha. cbn in Hr.
    cbn [length Nat.add].
    rewrite (signin_attempt _ st users a b _ Hu Hr), Ha.
    rewrite (IH n _ rest); [| exact Hu | reflexivity | exact Hf].
    rewrite (rejected_all_cons (a, b)). reflexivity.
Qed.

(** Whatever the client types, [signin_attempts n] reads at most
    [2 * n] lines and leaves the account store alone. *)
Lemma signin_attempts_bound n :
  ∀ st r st',
    signin_attempts n st = (r, st') →
    USERS_FILE (world st') = USERS_FILE (world st)
    ∧ (length (reader (session st)) ≤ length (reader (session st')) + 2 * n)%nat.
Proof.
  induction n as [|n IH]; intros st r st' H.
  - destruct st as [w [rd wr cl un]]. cbn [signin_attempts] in H. run_m_in H.
    injection H as _ <-. cbn. split; [reflexivity | lia].
  - destruct (reader (session st)) as [|a [|b rest]] eqn:Hr.
    + destruct st as [w [rd wr cl un]]. cbn in Hr. subst rd.
      cbn [signin_attempts] in H. run_m_in H.
      injection H as _ <-. cbn. split; [reflexivity | lia].
    + destruct st as [w [rd wr cl un]]. cbn in Hr. subst rd.
      cbn [signin_attempts] in H. run_m_in H.
      injection H as _ <-. cbn. split; [reflexivity | lia].
    + destruct (USERS_FILE (world st)) as [users|] eqn:Hu.
      * rewrite (signin_attempt n st users a b rest Hu Hr) in H.
        destruct (password_matches users (strip a) (strip b)).
        -- injection H as _ <-.
           destruct st as [[uf mf bf on ck] [rd wr cl un]]. cbn in Hr, Hu |- *.
           subst rd uf. split; [reflexivity | cbn; lia].
        -- apply IH in H as [H1 H2].
           destruct st as [[uf mf bf on ck] [rd wr cl un]]. cbn in Hr, Hu.
           subst rd uf. cbn in H1, H2 |- *. split; [exact H1 | lia].
      * destruct st as [[uf mf bf on ck] [rd wr cl un]]. cbn in Hr, Hu. subst rd uf.
        cbn [signin_attempts] in H. run_m_in H.
        injection H as _ <-. cbn. split; [reflexivity | lia].
Qed.

Lemma truthy_nonempty s : s ≠ "" → truthy s = true.
Proof. destruct s; [congruence | reflexivity]. Qed.

Lemma signin_gives_up st :
  signin_attempts 0 st = (Ret tt, turned_away st).
Proof. reflexivity. Qed.

Lemma signin_run st : signin st = signin_attempts 3 (signin_started st).
Proof. reflexivity. Qed.

(** C3.  On a store without an empty username (the store only ever
    holds names accepted by [signup]), a fresh session that runs
    [signin]:
    - is welcomed at the first accepted pair, provided fewer than
      three pairs were rejected before it: the name is recorded and
      added to [ONLINE], the connection stays open and
      [handle_client] goes on to the main menu ([logged_in]);
    - after three rejected pairs is sent the "Too many attempts"
      line and closed without reading further, with no user
      recorded and the whole world, account store included, as it
      was;
    - in every case, reads at most six lines and leaves the account
      store as it was. *)
Theorem signin_allows_three_attempts w users :
  USERS_FILE w = Some users →
  users !! "" = None →
  (∀ failed name pw rest,
     (length failed < 3)%nat →
     Forall (attempt_fails users) failed →
     password_matches users (strip name) (strip pw) = true →
     ∃ st',
       signin (connect w (attempt_lines failed ++ name :: pw :: rest)) = (Ret tt, st')
       ∧ username (session st') = Some (strip name)
       ∧ strip name ∈ ONLINE (world st')
       ∧ logged_in st' = true
       ∧ closed (session st') = false
       ∧ reader (session st') = rest
       ∧ USERS_FILE (world st') = Some users)
  ∧ (∀ failed rest,
       length failed = 3%nat →
       Forall (attempt_fails users) failed →
       ∃ st',
         signin (connect w (attempt_lines failed ++ rest)) = (Ret tt, st')
         ∧ username (session st') = None
         ∧ logged_in st' = false
         ∧ closed (session st') = true
         ∧ last (writer (session st')) = Some ("Too many attempts. Bye." +:+ nl)
         ∧ reader (session st') = rest
         ∧ world st' = w)
  ∧ (∀ lines r st',
       signin (connect w lines) = (r, st') →
       USERS_FILE (world st') = Some users
       ∧ (length lines ≤ length (reader (session st')) + 6)%nat).
Proof.
  intros Hu Hempty. split; [| split].
  - intros failed name pw rest Hlen Hfail Hok.
    set (st0 := signin_started (connect w (attempt_lines failed ++ name :: pw :: rest))).
    assert (∃ m, 3 = length failed + S m)%nat as [m Hm] by (exists (2 - length failed)%nat; lia).
    eexists. split.
    { rewrite signin_run. fold st0. rewrite Hm.
      rewrite (signin_attempts_rejected users failed (S m) st0 (name :: pw :: rest));
        [| exact Hu | reflexivity | exact Hfail].
      rewrite (signin_attempt m _ users name pw rest); [| exact Hu | reflexivity].
      rewrite Hok. reflexivity. }
    assert (Hne : strip name ≠ "").
    { intros E. rewrite E in Hok. unfold password_matches in Hok.
      rewrite Hempty in Hok. discriminate Hok. }
    cbn -[strip String.append]. repeat split; try reflexivity.
    + sets.
    + unfold logged_in. cbn -[strip]. apply truthy_nonempty, Hne.
    + exact Hu.
  - intros failed rest Hlen Hfail.
    set (st0 := signin_started (connect w (attempt_lines failed ++ rest))).
    eexists. split.
    { rewrite signin_run. fold st0.
      replace 3%nat with (length failed + 0)%nat by lia.
      rewrite (signin_attempts_rejected users failed 0 st0 rest);
        [| exact Hu | reflexivity | exact Hfail].
      apply signin_gives_up. }
    cbn -[String.append]. repeat split; try reflexivity.
    rewrite app_comm_cons. apply last_snoc.
  - intros lines r st' H. rewrite signin_run in H.
    apply signin_attempts_bound in H as [H1 H2]. cbn in H1, H2.
    split; [congruence | lia].
Qed.

(** *** Reading by position *)

Section Index.
Context {A : Type}.
Implicit Types (l : list A) (n : Z).

(** Positions 1..len read the element at that place. *)
Lemma index_in_range l n :
  (1 ≤ n ≤ Z.of_nat (length l))%Z →
  PyList.index l (n - 1) = l !! (Z.to_nat n - 1)%nat
  ∧ is_Some (PyList.index l (n - 1)).
Proof.
  intros Hn. unfold PyList.index.
  destruct (Z.leb_spec 0 (n - 1)) as [_ | ?]; [| lia].
  replace (Z.to_nat (n - 1)) with (Z.to_nat n - 1)%nat by lia.
  split; [reflexivity |]. apply lookup_lt_is_Some. lia.
Qed.

(** Positions above len raise [IndexError]. *)
Lemma index_above l n :
  (Z.of_nat (length l) < n)%Z → PyList.index l (n - 1) = None.
Proof.
  intros Hn. unfold PyList.index.
  destruct (Z.leb_spec 0 (n - 1)) as [_ | ?]; [| lia].
  apply lookup_ge_None. lia.
Qed.

(** Positions at or below -len raise [IndexError]. *)
Lemma index_far_below l n :
  (n ≤ - Z.of_nat (length l))%Z → PyList.index l (n - 1) = None.
Proof.
  intros Hn. unfold PyList.index.
  destruct (Z.leb_spec 0 (n - 1)) as [? | _]; [lia |].
  destruct (Z.leb_spec (- Z.of_nat (length l)) (n - 1)) as [? | _]; [lia |].
  reflexivity.
Qed.

(** Positions in (-len, 0] count from the end. *)
Lemma index_wraps l n :
  (- Z.of_nat (length l) < n ≤ 0)%Z →
  PyList.index l (n - 1) = l !! Z.to_nat (Z.of_nat (length l) + n - 1)
  ∧ is_Some (PyList.index l (n - 1)).
Proof.
  intros Hn. unfold PyList.index.
  destruct (Z.leb_spec 0 (n - 1)) as [? | _]; [lia |].
  destruct (Z.leb_spec (- Z.of_nat (length l)) (n - 1)) as [_ | ?]; [| lia].
  replace (Z.of_nat (length l) + (n - 1))%Z
    with (Z.of_nat (length l) + n - 1)%Z by lia.
  split; [reflexivity |]. apply lookup_lt_is_Some. lia.
Qed.

(** Position 0 is the last element. *)
Lemma index_zero_last l x : PyList.index (l ++ [x]) (0 - 1) = Some x.
Proof.
  destruct (index_wraps (l ++ [x]) 0) as [-> _].
  { rewrite length_app. cbn. lia. }
  rewrite length_app. cbn [length].
  replace (Z.to_nat (Z.of_nat (length l + 1) + 0 - 1)) with (length l + 0)%nat by lia.
  rewrite lookup_app_r by lia.
  replace (length l + 0 - length l)%nat with 0%nat by lia. reflexivity.
Qed.

(** Position len is the last element. *)
Lemma index_length_last l x :
  PyList.index (l ++ [x]) (Z.of_nat (length (l ++ [x])) - 1) = Some x.
Proof.
  destruct (index_in_range (l ++ [x]) (Z.of_nat (length (l ++ [x])))) as [-> _].
  { rewrite length_app. cbn. lia. }
  rewrite length_app. cbn [length].
  rewrite lookup_app_r by lia.
  replace (Z.to_nat (Z.of_nat (length l + 1)) - 1 - length l)%nat with 0%nat by lia.
  reflexivity.
Qed.

(** [l[n-1]] fails exactly outside (-len, len]. *)
Lemma index_fails_iff l n :
  PyList.index l (n - 1) = None ↔
  (n ≤ - Z.of_nat (length l) ∨ Z.of_nat (length l) < n)%Z.
Proof.
  split.
  - intros H.
    destruct (Z_le_gt_dec n (- Z.of_nat (length l))) as [? | ?]; [now left |].
    destruct (Z_lt_le_dec (Z.of_nat (length l)) n) as [? | ?]; [now right |].
    destruct (Z_le_gt_dec 1 n) as [? | ?].
    + destruct (index_in_range l n) as [_ [x Hx]]; [lia | congruence].
    + destruct (index_wraps l n) as [_ [x Hx]]; [lia | congruence].
  - intros [? | ?]; [apply index_far_below | apply index_above]; assumption.
Qed.
End Index.

(** The [r] command: one prompt, one line, one answer. *)
Lemma board_read_run st line rest msgs :
  reader (session st) = line :: rest →
  MESSAGES_FILE (world st) = Some msgs →
  board_read st =
  (Ret tt, answered st rest "Read which #: " (read_reply msgs line)).
Proof.
  destruct st as [[uf mf bf on ck] [rd wr cl un]]; cbn; intros -> ->.
  unfold board_read, answered, read_reply. run_m.
  destruct (int (strip line)) as [n|]; run_m.
  - destruct (read_message msgs n) as [m|]; run_m;
      rewrite <- app_assoc; reflexivity.
  - rewrite <- app_assoc; reflexivity.
Qed.

Lemma truthy_nl s : truthy (nl +:+ s) = true.
Proof. reflexivity. Qed.

(** [bulletins] on a selection other than [b]. *)
Lemma bulletins_run st line rest bulls :
  reader (session st) = line :: rest →
  BULLETINS_FILE (world st) = Some bulls →
  lower (strip (strip line)) ≠ "b" →
  bulletins st =
  (Ret tt,
   answered st rest (bulletins_prompt bulls)
     (bulletin_reply bulls (lower (strip (strip line))))).
Proof.
  destruct st as [[uf mf bf on ck] [rd wr cl un]]; cbn; intros -> -> Hb.
  apply String.eqb_neq in Hb.
  unfold bulletins, answered, bulletin_reply, bulletins_prompt. run_m.
  rewrite truthy_nl. run_m. rewrite Hb.
  destruct (int (lower (strip (strip line)))) as [n|]; run_m.
  - destruct (read_bulletin bulls n) as [b|]; run_m;
      rewrite <- app_assoc; reflexivity.
  - rewrite <- app_assoc; reflexivity.
Qed.

(** Positions 1..N read the stored message, positions above N and
    positions at or below -N get the invalid line. *)
Lemma read_reply_cases msgs line n :
  int (strip line) = Some n →
  ((1 ≤ n ≤ Z.of_nat (length msgs))%Z →
   ∃ m, msgs !! (Z.to_nat n - 1)%nat = Some m
        ∧ read_message msgs n = Some m
        ∧ read_reply msgs line = render_message m)
  ∧ ((Z.of_nat (length msgs) < n ∨ n ≤ - Z.of_nat (length msgs))%Z →
     read_message msgs n = None
     ∧ read_reply msgs line = invalid_message_number).
Proof.
  intros Hi. unfold read_reply, read_message. rewrite Hi. split.
  - intros Hn. destruct (index_in_range msgs n Hn) as [E [m Hm]].
    exists m. rewrite Hm. rewrite <- E. auto.
  - intros Hn. assert (PyList.index msgs (n - 1) = None) as ->; [| auto].
    apply index_fails_iff. lia.
Qed.

(** Position 0 is not rejected: on a non-empty board [msgs[0 - 1]]
    is the last message, and the [r] command answers the line "0"
    with that message instead of the invalid line.  The bulletin
    selection behaves the same way. *)
Lemma position_zero_reads_last :
  (∀ msgs m, read_message (msgs ++ [m]) 0 = Some m)
  ∧ (∀ bulls b, read_bulletin (bulls ++ [b]) 0 = Some b)
  ∧ (∀ st rest msgs m,
       reader (session st) = "0" :: rest →
       MESSAGES_FILE (world st) = Some (msgs ++ [m])%list →
       board_read st =
       (Ret tt, answered st rest "Read which #: " (render_message m)))
  ∧ (∀ st rest bulls b,
       reader (session st) = "0" :: rest →
       BULLETINS_FILE (world st) = Some (bulls ++ [b])%list →
       bulletins st =
       (Ret tt,
        answered st rest (bulletins_prompt (bulls ++ [b])) (render_bulletin b))).
Proof.
  split; [| split; [| split]].
  - intros msgs m. apply index_zero_last.
  - intros bulls b. apply index_zero_last.
  - intros st rest msgs m Hr Hm.
    rewrite (board_read_run st "0" rest _ Hr Hm).
    unfold read_reply. change (int (strip "0")) with (Some 0%Z).
    unfold read_message. rewrite index_zero_last. reflexivity.
  - intros st rest bulls b Hr Hb.
    rewrite (bulletins_run st "0" rest _ Hr Hb); [| vm_compute; discriminate].
    change (lower (strip (strip "0"))) with "0".
    unfold bulletin_reply. change (int "0") with (Some 0%Z).
    unfold read_bulletin. rewrite index_zero_last. reflexivity.
Qed.

(** C1.  On a board that holds the two messages [hello] and
    [second], position 0 is outside 1..2 and yet [msgs[0 - 1]] is
    [second]: a client that types "0" at the "Read which #" prompt
    is sent [second] rendered in full, not the "Invalid message
    number." line.  Positions 3 and -2 do get that line.  In the
    same way selection "0" on the two default bulletins shows the
    last of them. *)
Theorem read_position_zero_on_sample_board :
  let st := mkState (mkWorld (Some alice_store) (Some [hello; second])
                       (Some default_bulletins) ∅ 3)
              (mkSession ["0"] [] false (Some "alice")) in
  read_message [hello; second] 0 = Some second
  ∧ board_read st = (Ret tt, answered st [] "Read which #: " (render_message second))
  ∧ read_reply [hello; second] "3" = invalid_message_number
  ∧ read_reply [hello; second] "-2" = invalid_message_number
  ∧ read_bulletin default_bulletins 0 = default_bulletins !! 1%nat
  ∧ bulletins st =
    (Ret tt,
     answered st [] (bulletins_prompt default_bulletins)
       (render_bulletin (mkBulletin "Tips" "Use netcat: nc localhost 2323"))).
Proof.
  intros st.
  destruct position_zero_reads_last as (H1 & H2 & H3 & H4).
  split; [apply (H1 [hello] second) |].
  split; [apply (H3 st [] [hello] second); reflexivity |].
  split; [reflexivity |]. split; [reflexivity |].
  split; [reflexivity |].
  apply (H4 st [] [mkBulletin "Welcome to Goose Retro BBS"
                     "This is a tiny local BBS. Have fun!"]); reflexivity.
Qed.

(** *** Account creation *)

Lemma signup_create_fresh st users name line rest :
  USERS_FILE (world st) = Some users →
  users !! name = None →
  reader (session st) = line :: rest →
  signup_create name st =
  (Ret true, account_created st users rest name (strip line)).
Proof.
  destruct st as [[uf mf bf on ck] [rd wr cl un]]; cbn; intros -> Hn ->.
  unfold signup_create, account_created, answered. run_m.
  destruct (decide (name ∈ dom users)) as [Hin | _].
  - apply elem_of_dom in Hin as [r Hr]. congruence.
  - run_m. rewrite <- app_assoc. reflexivity.
Qed.

Lemma signup_create_taken st users name :
  USERS_FILE (world st) = Some users →
  is_Some (users !! name) →
  signup_create name st = (Ret false, name_taken st).
Proof.
  destruct st as [[uf mf bf on ck] [rd wr cl un]]; cbn; intros -> Hn.
  unfold signup_create, name_taken. run_m.
  destruct (decide (name ∈ dom users)) as [_ | Hout].
  - reflexivity.
  - exfalso. apply Hout, elem_of_dom, Hn.
Qed.

(** One iteration of the [signup] loop: an empty name is asked again
    without a word, any other name goes to the creation step. *)
Lemma signup_loop_step fuel st raw rest :
  reader (session st) = raw :: rest →
  signup_loop (S fuel) st =
  if truthy (strip raw)
  then (done ← signup_create (strip raw);
        if done : bool then mret tt else signup_loop fuel) (asked_username st rest)
  else signup_loop fuel (asked_username st rest).
Proof.
  intros Hr. cbn [signup_loop]. rewrite run_bind.
  rewrite (run_getline _ st raw rest Hr). cbn [truthy].
  destruct (truthy (strip raw)); reflexivity.
Qed.

(** C5.  For a username that the store does not hold, the creation
    step of [signup] succeeds: it reads the password, writes the
    store with one more record (that password, the current
    timestamp) and leaves every other record alone.  From then on,
    in any state whose store holds the name, the same step answers
    "Username taken." and changes nothing in the world.  The test is
    on the exact key: a different string, for instance one that
    differs in case only, is still free.  The [signup] loop reaches
    that step with every non-empty name that is typed. *)
Theorem signup_creates_exactly_once st users name line rest :
  USERS_FILE (world st) = Some users →
  users !! name = None →
  reader (session st) = line :: rest →
  let st1 := account_created st users rest name (strip line) in
  let record := mkUser (strip line) (utcnow_isoformat (clock (world st))) in
  signup_create name st = (Ret true, st1)
  ∧ USERS_FILE (world st1) = Some (<[name := record]> users)
  ∧ (∀ other, other ≠ name → (<[name := record]> users) !! other = users !! other)
  ∧ signup_create name st1 = (Ret false, name_taken st1)
  ∧ (∀ st2 users2,
       USERS_FILE (world st2) = Some users2 →
       is_Some (users2 !! name) →
       signup_create name st2 = (Ret false, name_taken st2)
       ∧ world (name_taken st2) = world st2)
  ∧ (∀ fuel st0 raw,
       world st0 = world st →
       reader (session st0) = raw :: line :: rest →
       strip raw = name →
       name ≠ "" →
       signup_loop (S fuel) st0 =
       (Ret tt,
        account_created (asked_username st0 (line :: rest)) users rest name (strip line))).
Proof.
  intros Hu Hn Hr st1 record.
  split; [apply signup_create_fresh; assumption |].
  split; [reflexivity |].
  split; [intros other Ho; apply lookup_insert_ne; congruence |].
  split.
  { apply (signup_create_taken st1 (<[name := record]> users)); [reflexivity |].
    rewrite lookup_insert_eq. eauto. }
  split.
  - intros st2 users2 Hu2 Hin. split; [| reflexivity].
    apply (signup_create_taken st2 users2); assumption.
  - intros fuel st0 raw Hw Hr0 Hraw Hne.
    rewrite (signup_loop_step fuel st0 raw (line :: rest) Hr0), Hraw.
    rewrite (truthy_nonempty name Hne), run_bind.
    rewrite (signup_create_fresh _ users name line rest); [reflexivity | | exact Hn | ].
    + destruct st0 as [w0 [rd wr cl un]]. cbn in Hw |- *. rewrite Hw. exact Hu.
    + destruct st0 as [w0 [rd wr cl un]]. reflexivity.
Qed.

(** *** Posting *)

Lemma post_message_run st msgs subj lines :
  MESSAGES_FILE (world st) = Some msgs →
  post_message subj lines st = (Ret tt, posted st msgs subj lines).
Proof.
  destruct st as [[uf mf bf on ck] [rd wr cl un]]; cbn; intros ->.
  reflexivity.
Qed.

Lemma subject_or_default_empty : subject_or_default "" = "(no subject)".
Proof. reflexivity. Qed.

Lemma subject_or_default_nonempty subj :
  subj ≠ "" → subject_or_default subj = subj.
Proof. destruct subj; [congruence | reflexivity]. Qed.

Lemma length_new_messages author ck posts :
  length (new_messages author ck posts) = length posts.
Proof.
  revert ck. induction posts as [|p posts IH]; intros ck; cbn; [| rewrite IH]; reflexivity.
Qed.

(** A run of posts appends its records in order. *)
Lemma post_all_run posts :
  ∀ st msgs,
    MESSAGES_FILE (world st) = Some msgs →
    ∃ st',
      post_all posts st = (Ret tt, st')
      ∧ MESSAGES_FILE (world st') =
        Some (msgs ++ new_messages (username (session st)) (clock (world st)) posts)%list
      ∧ username (session st') = username (session st).
Proof.
  induction posts as [|p posts IH]; intros st msgs Hm.
  - exists st. cbn. rewrite app_nil_r. auto.
  - cbn [post_all]. rewrite run_bind, (post_message_run st msgs _ _ Hm).
    destruct (IH (posted st msgs p.1 p.2) _ eq_refl) as (st' & Hrun & Hfile & Hname).
    exists st'. split; [exact Hrun |]. split; [| exact Hname].
    rewrite Hfile. cbn. rewrite <- app_assoc. reflexivity.
Qed.

(** The body loop returns the stripped lines typed before the
    first line that is a single dot, given fuel for each of them. *)
Lemma read_body_collects raw :
  ∀ fuel acc st dot rest,
    reader (session st) = (raw ++ dot :: rest)%list →
    Forall (λ l, strip l ≠ ".") raw →
    strip dot = "." →
    (length raw < fuel)%nat →
    read_body fuel acc st = (Ret (acc ++ (strip <$> raw))%list, set_reader rest st).
Proof.
  induction raw as [|l raw IH]; intros fuel acc st dot rest Hr Hraw Hdot Hfuel;
    (destruct fuel as [|fuel]; [lia |]); cbn [read_body];
    rewrite run_bind, (run_getline "" st _ _ Hr); cbn [truthy].
  - rewrite Hdot. cbn. rewrite app_nil_r. reflexivity.
  - apply Forall_cons in Hraw as [Hl Hraw].
    apply String.eqb_neq in Hl. rewrite Hl.
    rewrite (IH fuel _ _ dot rest); [| reflexivity | exact Hraw | exact Hdot | cbn in Hfuel; lia].
    cbn. rewrite <- app_assoc. destruct st as [w [rd wr cl un]]. reflexivity.
Qed.

(** The [p] command on a subject line, body lines and the closing dot. *)
Lemma board_post_run fuel st subj raw dot rest :
  reader (session st) = (subj :: raw ++ dot :: rest)%list →
  Forall (λ l, strip l ≠ ".") raw →
  strip dot = "." →
  (length raw < fuel)%nat →
  board_post fuel st =
  post_message (strip subj) (strip <$> raw) (asked_body st rest).
Proof.
  intros Hr Hraw Hdot Hfuel. unfold board_post.
  rewrite run_bind, (run_getline _ st _ _ Hr). cbn [truthy].
  rewrite run_bind. unfold send at 1, modify at 1.
  rewrite run_bind.
  erewrite (read_body_collects raw fuel [] _ dot rest);
    [| reflexivity | exact Hraw | exact Hdot | exact Hfuel].
  cbn [app]. unfold asked_body, answered.
  destruct st as [w [rd wr cl un]]. run_m. rewrite <- !app_assoc. reflexivity.
Qed.

Lemma new_messages_app author posts1 :
  ∀ ck posts2,
    new_messages author ck (posts1 ++ posts2) =
    (new_messages author ck posts1
     ++ new_messages author (ck + length posts1) posts2)%list.
Proof.
  induction posts1 as [|p posts1 IH]; intros ck posts2; cbn.
  - rewrite Nat.add_0_r. reflexivity.
  - rewrite IH. replace (S ck + length posts1)%nat with (ck + S (length posts1))%nat by lia.
    reflexivity.
Qed.

Lemma subject_new_messages author posts :
  ∀ ck, subject <$> new_messages author ck posts
        = (λ p, subject_or_default p.1) <$> posts.
Proof. induction posts as [|p posts IH]; intros ck; cbn; [| rewrite IH]; reflexivity. Qed.

Lemma body_new_messages author posts :
  ∀ ck, body <$> new_messages author ck posts = (λ p, join nl p.2) <$> posts.
Proof. induction posts as [|p posts IH]; intros ck; cbn; [| rewrite IH]; reflexivity. Qed.

Lemma append_assoc (a b c : string) : (a +:+ b) +:+ c = a +:+ (b +:+ c).
Proof.
  induction a as [|x a IH]; [reflexivity |].
  change (String x ((a +:+ b) +:+ c) = String x (a +:+ (b +:+ c))).
  f_equal. exact IH.
Qed.

(** The listing row of a message ends with its stored subject. *)
Lemma board_row_shows_subject i m author :
  from m = Some author →
  ∃ columns, board_row i m = Some (columns +:+ subject m).
Proof.
  intros Hf. unfold board_row. rewrite Hf. cbn.
  eexists (fmt_2d i +:+ " " +:+ ljust 20 (slice_to 19 (ts m)) +:+ " "
           +:+ ljust 10 (slice_to 10 author) +:+ " ").
  rewrite !append_assoc. reflexivity.
Qed.

Lemma board_rows_snoc msgs :
  ∀ i rows m row,
    board_rows i msgs = Some rows →
    board_row (i + length msgs) m = Some row →
    board_rows i (msgs ++ [m]) = Some (rows ++ [row])%list.
Proof.
  induction msgs as [|m0 msgs IH]; intros i rows m row Hrows Hrow.
  - cbn in Hrows. injection Hrows as <-. cbn in Hrow |- *.
    rewrite Nat.add_0_r in Hrow. rewrite Hrow. reflexivity.
  - cbn [board_rows app] in Hrows |- *.
    destruct (board_row i m0) as [r0|]; [| discriminate Hrows]. cbn in Hrows |- *.
    destruct (board_rows (S i) msgs) as [rs|] eqn:E; [| discriminate Hrows].
    cbn in Hrows. injection Hrows as <-.
    rewrite (IH (S i) rs m row E); [reflexivity |].
    cbn [length] in Hrow. replace (S i + length msgs)%nat with (i + S (length msgs))%nat by lia.
    exact Hrow.
Qed.

Lemma board_list_run st msgs m rows :
  MESSAGES_FILE (world st) = Some (msgs ++ [m])%list →
  board_rows 1 (msgs ++ [m]) = Some rows →
  board_list st =
  (Ret tt,
   set_writer (writer (session st) ++ [join nl (board_header :: rows) +:+ nl])%list st).
Proof.
  destruct st as [[uf mf bf on ck] [rd wr cl un]]; cbn; intros -> Hrows.
  unfold board_list. run_m.
  destruct (msgs ++ [m])%list as [|m0 l] eqn:E.
  - destruct msgs; discriminate E.
  - rewrite Hrows. reflexivity.
Qed.

(** C7.  The [p] command reads a subject line, the body lines and
    the closing dot, and appends one record.  Its subject is the
    placeholder "(no subject)" when the (stripped) subject line is
    empty and the subject line itself otherwise; its body is the
    (stripped) body lines joined by newlines.  The row of the record
    in a listing ends with the stored subject, and the next [l]
    command of the session sends a listing whose last row is that
    row. *)
Theorem post_stores_subject_and_body fuel st msgs subj raw dot rest :
  MESSAGES_FILE (world st) = Some msgs →
  reader (session st) = (subj :: raw ++ dot :: rest)%list →
  Forall (λ l, strip l ≠ ".") raw →
  strip dot = "." →
  (length raw < fuel)%nat →
  ∃ st' m,
    board_post fuel st = (Ret tt, st')
    ∧ MESSAGES_FILE (world st') = Some (msgs ++ [m])%list
    ∧ (strip subj = "" → subject m = "(no subject)")
    ∧ (strip subj ≠ "" → subject m = strip subj)
    ∧ body m = join nl (strip <$> raw)
    ∧ (∀ author rows,
         username (session st) = Some author →
         board_rows 1 msgs = Some rows →
         ∃ columns,
           board_row (1 + length msgs) m = Some (columns +:+ subject m)
           ∧ board_list st' =
             (Ret tt,
              set_writer
                (writer (session st')
                 ++ [join nl (board_header :: rows ++ [columns +:+ subject m]) +:+ nl])%list
                st')).
Proof.
  intros Hm Hr Hraw Hdot Hfuel.
  set (st1 := asked_body st rest).
  set (m := new_message (username (session st)) (clock (world st)) (strip subj)
              (strip <$> raw)).
  exists (posted st1 msgs (strip subj) (strip <$> raw)), m.
  split.
  { rewrite (board_post_run fuel st subj raw dot rest Hr Hraw Hdot Hfuel).
    apply post_message_run. exact Hm. }
  split; [reflexivity |].
  split; [intros E; cbn; rewrite E; reflexivity |].
  split; [intros E; cbn; apply subject_or_default_nonempty, E |].
  split; [reflexivity |].
  intros author rows Hu Hrows.
  destruct (board_row_shows_subject (1 + length msgs) m author) as [columns Hrow];
    [exact Hu |].
  exists columns. split; [exact Hrow |].
  apply (board_list_run _ msgs m); [reflexivity |].
  apply board_rows_snoc; assumption.
Qed.

(** *** Presence *)

Lemma str_le_iff a b :
  PyList.str_le a b ↔ OrderedTypeEx.String_as_OT.lt a b ∨ a = b.
Proof. without_library.
  unfold PyList.str_le, String.leb.
  destruct (String.compare a b) eqn:E.
  - apply OrderedTypeEx.String_as_OT.cmp_eq in E. tauto.
  - apply OrderedTypeEx.String_as_OT.cmp_lt in E. tauto.
  - split; [discriminate |]. intros [H | H]; exfalso.
    + apply OrderedTypeEx.String_as_OT.cmp_lt in H.
      unfold OrderedTypeEx.String_as_OT.cmp in H. congruence.
    + apply OrderedTypeEx.String_as_OT.cmp_eq in H.
      unfold OrderedTypeEx.String_as_OT.cmp in H. congruence.
Qed.

#[local] Instance str_le_trans : Transitive PyList.str_le.
Proof.
  intros a b c Hab Hbc. apply str_le_iff in Hab, Hbc. apply str_le_iff.
  destruct Hab as [Hab | ->]; [| exact Hbc].
  destruct Hbc as [Hbc | <-]; [| now left].
  left. eapply OrderedTypeEx.String_as_OT.lt_trans; eassumption.
Qed.

#[local] Instance str_le_total : Total PyList.str_le.
Proof. intros a b. apply String.leb_total. Qed.

(** [sorted(ONLINE)] lists every member once, in ascending order. *)
Lemma sorted_spec (s : gset string) :
  StronglySorted PyList.str_le (PyList.sorted s)
  ∧ NoDup (PyList.sorted s)
  ∧ ∀ x, x ∈ PyList.sorted s ↔ x ∈ s.
Proof.
  unfold PyList.sorted. split; [| split].
  - apply (StronglySorted_merge_sort _).
  - rewrite merge_sort_Permutation. apply NoDup_elements.
  - intros x. rewrite merge_sort_Permutation. apply elem_of_elements.
Qed.

Lemma whos_online_run st :
  whos_online st =
  (Ret tt,
   set_writer (writer (session st) ++ [online_line (ONLINE (world st))])%list st).
Proof.
  unfold whos_online, online_line. run_m.
  destruct (decide (ONLINE (world st) = ∅)); reflexivity.
Qed.

Lemma online_discard_run st :
  online_discard st = (Ret tt, set_online (discarded st) st).
Proof.
  destruct st as [[uf mf bf on ck] [rd wr cl [u|]]];
    unfold online_discard, discarded, set_online; cbn; [| reflexivity].
  destruct (decide (u ∈ on)) as [Hin | Hout]; [reflexivity |].
  assert (on ∖ {[u]} = on) as -> by sets. reflexivity.
Qed.

Lemma cleanup_run st : cleanup st = (Ret tt, cleaned_up st).
Proof.
  unfold cleanup. rewrite run_bind, online_discard_run. reflexivity.
Qed.

Lemma logoff_run st : logoff st = (Ret tt, logged_off st).
Proof.
  unfold logoff. rewrite run_bind. unfold send at 1, modify at 1.
  rewrite run_bind, online_discard_run. reflexivity.
Qed.

Lemma online_add_run u st :
  online_add u st = (Ret tt, set_online ({[u]} ∪ ONLINE (world st)) st).
Proof. reflexivity. Qed.

(** C8.  [ONLINE] is a set.  Adding a name that is already there
    changes nothing.  When two connections sign in under the same
    name the set holds the name once, and the [logoff] of the first
    removes it although the second is still signed in and open (and
    so would the [logoff] of the second).
    [whos_online] sends "No one online." for the empty set and
    otherwise "Online: " followed by the members, each once, in
    ascending order, joined by ", ". *)
Theorem presence_is_a_set :
  (∀ st u,
     ∃ st1 st2,
       online_add u st = (Ret tt, st1)
       ∧ online_add u st1 = (Ret tt, st2)
       ∧ u ∈ ONLINE (world st1)
       ∧ ONLINE (world st2) = ONLINE (world st1))
  ∧ (∀ w users name a1 b1 rest1 a2 b2 rest2,
       USERS_FILE w = Some users →
       strip a1 = name → strip a2 = name →
       password_matches users name (strip b1) = true →
       password_matches users name (strip b2) = true →
       ∃ st1 st2 st1',
         signin (connect w (a1 :: b1 :: rest1)) = (Ret tt, st1)
         ∧ signin (connect (world st1) (a2 :: b2 :: rest2)) = (Ret tt, st2)
         ∧ ONLINE (world st1) = {[name]} ∪ ONLINE w
         ∧ ONLINE (world st2) = ONLINE (world st1)
         ∧ (∀ x, x ∈ PyList.sorted (ONLINE (world st2)) ↔ x = name ∨ x ∈ ONLINE w)
         ∧ NoDup (PyList.sorted (ONLINE (world st2)))
         ∧ logoff (on_world (world st2) st1) = (Ret tt, st1')
         ∧ (name ∉ ONLINE (world st1'))
         ∧ username (session st2) = Some name
         ∧ closed (session st2) = false
         ∧ logoff st2 = (Ret tt, logged_off st2)
         ∧ (name ∉ ONLINE (world (logged_off st2))))
  ∧ (∀ st,
       whos_online st =
         (Ret tt,
          set_writer (writer (session st) ++ [online_line (ONLINE (world st))])%list st)
       ∧ (ONLINE (world st) = ∅ →
          online_line (ONLINE (world st)) = "No one online." +:+ nl)
       ∧ (ONLINE (world st) ≠ ∅ →
          online_line (ONLINE (world st)) =
          "Online: " +:+ join ", " (PyList.sorted (ONLINE (world st))) +:+ nl)
       ∧ StronglySorted PyList.str_le (PyList.sorted (ONLINE (world st)))
       ∧ NoDup (PyList.sorted (ONLINE (world st)))
       ∧ (∀ x, x ∈ PyList.sorted (ONLINE (world st)) ↔ x ∈ ONLINE (world st))).
Proof.
  split; [| split].
  - intros st u. do 2 eexists. rewrite !online_add_run.
    split; [reflexivity |]. split; [reflexivity |].
    destruct st as [[uf mf bf on ck] ss]. cbn. split; sets.
  - intros w users name a1 b1 rest1 a2 b2 rest2 Hu Ha1 Ha2 Hp1 Hp2.
    set (st1 := welcomed_back (signin_started (connect w (a1 :: b1 :: rest1)))
                  rest1 name).
    set (st2 := welcomed_back (signin_started (connect (world st1) (a2 :: b2 :: rest2)))
                  rest2 name).
    assert (Hon1 : ONLINE (world st1) = {[name]} ∪ ONLINE w) by reflexivity.
    assert (Hon2 : ONLINE (world st2) = ONLINE (world st1)).
    { change (ONLINE (world st2)) with ({[name]} ∪ ONLINE (world st1)).
      rewrite Hon1. sets. }
    exists st1, st2, (logged_off (on_world (world st2) st1)).
    split.
    { rewrite signin_run.
      rewrite (signin_attempt 2 _ users a1 b1 rest1); [| exact Hu | reflexivity].
      rewrite Ha1, Hp1. reflexivity. }
    split.
    { rewrite signin_run.
      rewrite (signin_attempt 2 _ users a2 b2 rest2); [| exact Hu | reflexivity].
      rewrite Ha2, Hp2. reflexivity. }
    split; [exact Hon1 |]. split; [exact Hon2 |].
    split.
    { intros x. destruct (sorted_spec (ONLINE (world st2))) as (_ & _ & ->).
      rewrite Hon2, Hon1. sets. }
    split; [apply sorted_spec |].
    split; [apply logoff_run |].
    split.
    { change (ONLINE (world (logged_off (on_world (world st2) st1))))
        with (ONLINE (world st2) ∖ {[name]}).
      sets. }
    split; [reflexivity |]. split; [reflexivity |].
    split; [apply logoff_run |].
    change (ONLINE (world (logged_off st2))) with (ONLINE (world st2) ∖ {[name]}).
    sets.
  - intros st. split; [apply whos_online_run |].
    unfold online_line.
    split; [intros E; rewrite decide_True by exact E; reflexivity |].
    split; [intros E; rewrite decide_False by exact E; reflexivity |].
    apply sorted_spec.
Qed.

(** *** What a session can change *)

#[local] Instance evolves_refl : Reflexive evolves.
Proof.
  intros st. constructor; eauto.
  - intros msgs H. exists []. rewrite app_nil_r. exact H.
Qed.

#[local] Instance evolves_trans : Transitive evolves.
Proof.
  intros st1 st2 st3 [U1 N1 M1 B1 R1] [U2 N2 M2 B2 R2]. constructor.
  - intros users H. destruct (U1 _ H) as (users2 & H2 & S2).
    destruct (U2 _ H2) as (users3 & H3 & S3).
    exists users3. split; [exact H3 | etrans; eassumption].
  - intros H. apply N2, N1, H.
  - intros msgs H. destruct (M1 _ H) as (more1 & H2).
    destruct (M2 _ H2) as (more2 & H3).
    exists (more1 ++ more2)%list. rewrite app_assoc. exact H3.
  - congruence.
  - lia.
Qed.

(** A change that leaves the files alone and does not add input. *)
Lemma evolves_same_files st st' :
  USERS_FILE (world st') = USERS_FILE (world st) →
  MESSAGES_FILE (world st') = MESSAGES_FILE (world st) →
  BULLETINS_FILE (world st') = BULLETINS_FILE (world st) →
  (length (reader (session st')) ≤ length (reader (session st)))%nat →
  evolves st st'.
Proof.
  intros HU HM HB HR. constructor.
  - intros users H. exists users. split; [congruence | reflexivity].
  - intros H users' H'. apply H. congruence.
  - intros msgs H. exists []. rewrite app_nil_r. congruence.
  - exact HB.
  - exact HR.
Qed.

Lemma steps_ret {A} (a : A) : steps (mret a).
Proof. intros st. reflexivity. Qed.

Lemma steps_bind {A B} (m : M A) (f : A → M B) :
  steps m → (∀ a, steps (f a)) → steps (m ≫= f).
Proof.
  intros Hm Hf st. rewrite run_bind. specialize (Hm st).
  destruct (m st) as [[a | e |] st1]; cbn in Hm |- *; [| exact Hm | exact Hm].
  etrans; [exact Hm | apply Hf].
Qed.

Lemma steps_fmap {A B} (g : A → B) (m : M A) : steps m → steps (g <$> m).
Proof.
  intros Hm st. rewrite run_fmap. specialize (Hm st).
  destruct (m st) as [[a | e |] st1]; exact Hm.
Qed.

Lemma steps_try_except {A} (m h : M A) : steps m → steps h → steps (try_except m h).
Proof.
  intros Hm Hh st. unfold try_except. specialize (Hm st).
  destruct (m st) as [[a | e |] st1]; cbn in Hm |- *; [exact Hm | | exact Hm].
  etrans; [exact Hm | apply Hh].
Qed.

Lemma steps_try_except_connection m : steps m → steps (try_except_connection m).
Proof.
  intros Hm st. unfold try_except_connection. specialize (Hm st).
  destruct (m st) as [[a | [] |] st1]; exact Hm.
Qed.

Lemma steps_try_finally m h : steps m → steps h → steps (try_finally m h).
Proof.
  intros Hm Hh st. unfold try_finally. specialize (Hm st).
  destruct (m st) as [[a | e |] st1]; cbn in Hm |- *; [| | exact Hm].
  - etrans; [exact Hm | apply Hh].
  - specialize (Hh st1). destruct (h st1) as [[a | e' |] st2]; cbn in Hh |- *;
      (etrans; [exact Hm | exact Hh]).
Qed.

(** Operations that touch no file and add no input. *)
Ltac steps_same_files :=
  let st := fresh "st" in
  intros st; destruct st as [[? ? ? ? ?] [? ? ? ?]];
  apply evolves_same_files; reflexivity.

Lemma steps_send s : steps (send s).
Proof. steps_same_files. Qed.

Lemma steps_modify_username u : steps (modify (set_username u)).
Proof. steps_same_files. Qed.

Lemma steps_online_add u : steps (online_add u).
Proof. steps_same_files. Qed.

Lemma steps_writer_close : steps writer_close.
Proof. steps_same_files. Qed.

Lemma steps_utcnow : steps utcnow.
Proof. steps_same_files. Qed.

Lemma steps_get {A} (f : State → A) : steps (get f).
Proof. intros st. reflexivity. Qed.

Lemma steps_raise {A} e : steps (raise e : M A).
Proof. intros st. reflexivity. Qed.

Lemma steps_out_of_fuel {A} : steps (out_of_fuel : M A).
Proof. intros st. reflexivity. Qed.

Lemma steps_lift_opt {A} e (o : option A) : steps (lift_opt e o).
Proof. destruct o; [apply steps_ret | apply steps_raise]. Qed.

Lemma steps_load_users : steps load_users.
Proof. intros st. unfold load_users. apply steps_lift_opt. Qed.

Lemma steps_load_messages : steps load_messages.
Proof. intros st. unfold load_messages. apply steps_lift_opt. Qed.

Lemma steps_load_bulletins : steps load_bulletins.
Proof. intros st. unfold load_bulletins. apply steps_lift_opt. Qed.

Lemma steps_online_discard : steps online_discard.
Proof.
  intros st. rewrite online_discard_run.
  destruct st as [[? ? ? ? ?] [? ? ? ?]]. apply evolves_same_files; reflexivity.
Qed.

Lemma steps_readline : steps readline.
Proof.
  intros [[? ? ? ? ?] [rd ? ? ?]]. unfold readline. cbn.
  destruct rd as [|l rest]; [reflexivity |].
  apply evolves_same_files; cbn; try reflexivity. lia.
Qed.

Lemma steps_getline prompt : steps (getline prompt).
Proof.
  unfold getline. apply steps_bind.
  - destruct (truthy prompt); [apply steps_send | apply steps_ret].
  - intros _. apply steps_bind; [apply steps_readline | intros; apply steps_ret].
Qed.

Lemma truthy_true_nonempty s : truthy s = true → s ≠ "".
Proof. destruct s; [discriminate | discriminate]. Qed.

Create HintDb steps.

(** Decompose a handler into the operations it is made of. *)
Ltac steps_auto :=
  repeat first
    [ assumption
    | solve [auto 1 with steps]
    | apply steps_ret | apply steps_send | apply steps_getline
    | apply steps_load_users | apply steps_load_messages | apply steps_load_bulletins
    | apply steps_modify_username | apply steps_online_add | apply steps_online_discard
    | apply steps_writer_close | apply steps_utcnow | apply steps_get
    | apply steps_lift_opt | apply steps_raise | apply steps_out_of_fuel
    | apply steps_fmap | apply steps_try_except
    | apply steps_bind; [| intros ?]
    | match goal with
      | |- steps (if ?c then _ else _) => destruct c
      | |- steps (match ?x with _ => _ end) => destruct x
      end
    ].

Lemma steps_signin_attempts n : steps (signin_attempts n).
Proof. induction n as [|n IH]; cbn [signin_attempts]; steps_auto. Qed.
#[local] Hint Resolve steps_signin_attempts : steps.

Lemma steps_signin : steps signin.
Proof. unfold signin. steps_auto. Qed.
#[local] Hint Resolve steps_signin : steps.

Lemma steps_signup_create name : name ≠ "" → steps (signup_create name).
Proof.
  intros Hname st.
  destruct (USERS_FILE (world st)) as [users|] eqn:Hu.
  - destruct (users !! name) as [r|] eqn:Hn.
    + rewrite (signup_create_taken st users name Hu) by eauto.
      destruct st as [[? ? ? ? ?] [? ? ? ?]]. apply evolves_same_files; reflexivity.
    + destruct (reader (session st)) as [|line rest] eqn:Hr.
      * destruct st as [[uf mf bf on ck] [rd wr cl un]]. cbn in Hu, Hr. subst uf rd.
        unfold signup_create. run_m.
        destruct (decide (name ∈ dom users)); apply evolves_same_files; reflexivity.
      * rewrite (signup_create_fresh st users name line rest Hu Hn Hr).
        destruct st as [[uf mf bf on ck] [rd wr cl un]]. cbn in Hu, Hr. subst uf rd.
        constructor; cbn.
        -- intros ? [= <-]. eexists. split; [reflexivity |].
           apply insert_subseteq, Hn.
        -- intros H ? [= <-]. rewrite lookup_insert_ne by congruence. eauto.
        -- intros msgs ->. exists []. rewrite app_nil_r. reflexivity.
        -- reflexivity.
        -- lia.
  - destruct st as [[uf mf bf on ck] [rd wr cl un]]. cbn in Hu. subst uf.
    reflexivity.
Qed.

Lemma steps_signup_loop fuel : steps (signup_loop fuel).
Proof.
  induction fuel as [|fuel IH]; cbn [signup_loop]; [apply steps_out_of_fuel |].
  apply steps_bind; [apply steps_getline | intros name].
  destruct (truthy name) eqn:E; [| exact IH].
  apply steps_bind; [apply steps_signup_create, truthy_true_nonempty, E |].
  intros [|]; [apply steps_ret | exact IH].
Qed.
#[local] Hint Resolve steps_signup_loop : steps.

Lemma steps_signup fuel : steps (signup fuel).
Proof. unfold signup. steps_auto. Qed.
#[local] Hint Resolve steps_signup : steps.

Lemma steps_login fuel : steps (login fuel).
Proof. unfold login. steps_auto. Qed.
#[local] Hint Resolve steps_login : steps.

Lemma steps_post_message subj lines : steps (post_message subj lines).
Proof.
  intros st. destruct (MESSAGES_FILE (world st)) as [msgs|] eqn:Hm.
  - rewrite (post_message_run st msgs subj lines Hm).
    destruct st as [[uf mf bf on ck] [rd wr cl un]]. cbn in Hm. subst mf.
    constructor; cbn.
    + intros users ->. eexists. split; reflexivity.
    + auto.
    + intros ? [= <-]. eauto.
    + reflexivity.
    + lia.
  - destruct st as [[uf mf bf on ck] [rd wr cl un]]. cbn in Hm. subst mf.
    reflexivity.
Qed.
#[local] Hint Resolve steps_post_message : steps.

Lemma steps_read_body fuel : ∀ lines, steps (read_body fuel lines).
Proof. induction fuel as [|fuel IH]; intros lines; cbn [read_body]; steps_auto. Qed.
#[local] Hint Resolve steps_read_body : steps.

Lemma steps_board_post fuel : steps (board_post fuel).
Proof. unfold board_post. steps_auto. Qed.

Lemma steps_board_list : steps board_list.
Proof. unfold board_list. steps_auto. Qed.

Lemma steps_board_read : steps board_read.
Proof. unfold board_read. steps_auto. Qed.
#[local] Hint Resolve steps_board_post steps_board_list steps_board_read : steps.

Lemma steps_message_board fuel : steps (message_board fuel).
Proof.
  induction fuel as [|fuel IH]; cbn [message_board]; [apply steps_out_of_fuel |].
  steps_auto.
Qed.

Lemma steps_bulletins : steps bulletins.
Proof. unfold bulletins. steps_auto. Qed.

Lemma steps_whos_online : steps whos_online.
Proof. unfold whos_online. steps_auto. Qed.

Lemma steps_logoff : steps logoff.
Proof. unfold logoff. steps_auto. Qed.
#[local] Hint Resolve steps_message_board steps_bulletins steps_whos_online
  steps_logoff : steps.

Lemma steps_main_menu fuel : steps (main_menu fuel).
Proof.
  induction fuel as [|fuel IH]; cbn [main_menu]; [apply steps_out_of_fuel |].
  steps_auto.
Qed.

Lemma steps_cleanup : steps cleanup.
Proof. unfold cleanup. steps_auto. Qed.
#[local] Hint Resolve steps_main_menu steps_cleanup : steps.

(** Whatever the client sends, a connection only adds accounts
    (none under the empty name), only appends messages, never
    writes the bulletins and only consumes its input. *)
Lemma steps_handle_client fuel : steps (handle_client fuel).
Proof.
  unfold handle_client.
  apply steps_try_finally; [| apply steps_cleanup].
  apply steps_try_except_connection.
  steps_auto.
Qed.

(** C6.  Starting from an empty board, a run of N posts leaves
    exactly N messages, in the order of the posts, and reading
    position N gives the message of the last post.  Each single
    post, on any board, rewrites the file as the old list followed
    by the new record: every earlier position still reads the same
    message and the new one is at the last position.  A whole
    connection, whatever the client sends, leaves the board as the
    old list followed by new records. *)
Theorem board_is_append_only :
  (∀ st posts,
     MESSAGES_FILE (world st) = Some [] →
     ∃ st' msgs,
       post_all posts st = (Ret tt, st')
       ∧ MESSAGES_FILE (world st') = Some msgs
       ∧ length msgs = length posts
       ∧ subject <$> msgs = (λ p, subject_or_default p.1) <$> posts
       ∧ body <$> msgs = (λ p, join nl p.2) <$> posts
       ∧ (∀ p, last posts = Some p →
            ∃ m, read_message msgs (Z.of_nat (length posts)) = Some m
                 ∧ last msgs = Some m
                 ∧ subject m = subject_or_default p.1
                 ∧ body m = join nl p.2))
  ∧ (∀ st msgs subj lines,
       MESSAGES_FILE (world st) = Some msgs →
       ∃ st' m,
         post_message subj lines st = (Ret tt, st')
         ∧ MESSAGES_FILE (world st') = Some (msgs ++ [m])%list
         ∧ m = new_message (username (session st)) (clock (world st)) subj lines
         ∧ read_message (msgs ++ [m]) (Z.of_nat (length msgs) + 1) = Some m
         ∧ (∀ i, (i < length msgs)%nat → (msgs ++ [m])%list !! i = msgs !! i))
  ∧ (∀ fuel st msgs,
       MESSAGES_FILE (world st) = Some msgs →
       ∃ more,
         MESSAGES_FILE (world (handle_client fuel st).2) = Some (msgs ++ more)%list).
Proof.
  split; [| split].
  - intros st posts Hm.
    destruct (post_all_run posts st [] Hm) as (st' & Hrun & Hfile & _).
    cbn [app] in Hfile.
    exists st', (new_messages (username (session st)) (clock (world st)) posts).
    split; [exact Hrun |]. split; [exact Hfile |].
    split; [apply length_new_messages |].
    split; [apply subject_new_messages |].
    split; [apply body_new_messages |].
    intros p Hlast. apply last_Some in Hlast as [posts' ->].
    rewrite new_messages_app. cbn [new_messages].
    eexists. split; [| split; [apply last_snoc | split; reflexivity]].
    unfold read_message.
    rewrite <- (length_new_messages (username (session st)) (clock (world st))
                  (posts' ++ [p])).
    rewrite new_messages_app. cbn [new_messages].
    apply index_length_last.
  - intros st msgs subj lines Hm.
    exists (posted st msgs subj lines),
           (new_message (username (session st)) (clock (world st)) subj lines).
    split; [apply post_message_run, Hm |].
    split; [reflexivity |]. split; [reflexivity |]. split.
    + unfold read_message.
      replace (Z.of_nat (length msgs) + 1)%Z
        with (Z.of_nat (length (msgs ++ [new_message (username (session st))
                                           (clock (world st)) subj lines])))
        by (rewrite length_app; cbn; lia).
      apply index_length_last.
    + intros i Hi. apply lookup_app_l, Hi.
  - intros fuel st msgs Hm.
    apply (ev_messages _ _ (steps_handle_client fuel st) msgs Hm).
Qed.

(** *** Fuel *)

Lemma finished_ret {A} (a : A) st : finished ((mret a : M A) st).
Proof. unfold finished. cbn. discriminate. Qed.

(** After a finished [m] that only consumes input, what remains to
    show is that the continuation finishes on a reader that is no
    longer. *)
Lemma finished_bind {A B} (m : M A) (f : A → M B) st :
  finished (m st) →
  steps m →
  (∀ a st1,
     (length (reader (session st1)) ≤ length (reader (session st)))%nat →
     finished (f a st1)) →
  finished ((m ≫= f) st).
Proof.
  intros Hm Hs Hf. rewrite run_bind. specialize (Hs st).
  destruct (m st) as [[a | e |] st1]; cbn in Hs.
  - apply Hf, Hs.
  - unfold finished. cbn. discriminate.
  - exfalso. apply Hm. reflexivity.
Qed.

(** [getline] either fails or hands over a strictly shorter reader. *)
Lemma getline_cases prompt st :
  (∃ st1, getline prompt st = (Raise ConnectionResetError, st1))
  ∨ (∃ l st1,
       getline prompt st = (Ret (strip l), st1)
       ∧ (length (reader (session st1)) < length (reader (session st)))%nat).
Proof.
  destruct (reader (session st)) as [|l rest] eqn:Hr.
  - left. eexists. apply run_getline_eof, Hr.
  - right. exists l. eexists. split; [apply run_getline, Hr |].
    destruct st as [w [rd wr cl un]]. cbn in Hr. subst rd.
    destruct (truthy prompt); cbn; lia.
Qed.

Lemma finished_getline {B} prompt (f : string → M B) st :
  (∀ a st1,
     (length (reader (session st1)) < length (reader (session st)))%nat →
     finished (f a st1)) →
  finished ((getline prompt ≫= f) st).
Proof.
  intros Hf. rewrite run_bind.
  destruct (getline_cases prompt st) as [[st1 ->] | (l & st1 & -> & Hlt)].
  - unfold finished. cbn. discriminate.
  - apply Hf, Hlt.
Qed.

Lemma finished_getline_fmap {B} (g : string → string) prompt (f : string → M B) st :
  (∀ a st1,
     (length (reader (session st1)) < length (reader (session st)))%nat →
     finished (f a st1)) →
  finished (((g <$> getline prompt) ≫= f) st).
Proof.
  intros Hf. rewrite run_bind, run_fmap.
  destruct (getline_cases prompt st) as [[st1 ->] | (l & st1 & -> & Hlt)].
  - unfold finished. cbn. discriminate.
  - apply Hf, Hlt.
Qed.

Lemma total_ret {A} (a : A) : total (mret a).
Proof. intros st. apply finished_ret. Qed.

Lemma total_bind {A B} (m : M A) (f : A → M B) :
  total m → (∀ a, total (f a)) → total (m ≫= f).
Proof.
  intros Hm Hf st. rewrite run_bind. specialize (Hm st).
  destruct (m st) as [[a | e |] st1].
  - apply Hf.
  - unfold finished. cbn. discriminate.
  - exfalso. apply Hm. reflexivity.
Qed.

Lemma total_fmap {A B} (g : A → B) (m : M A) : total m → total (g <$> m).
Proof.
  intros Hm st. rewrite run_fmap. specialize (Hm st).
  destruct (m st) as [[a | e |] st1]; unfold finished in *; cbn in *;
    [discriminate | discriminate | exfalso; apply Hm; reflexivity].
Qed.

Lemma total_try_except {A} (m h : M A) : total m → total h → total (try_except m h).
Proof.
  intros Hm Hh st. unfold try_except. specialize (Hm st).
  destruct (m st) as [[a | e |] st1]; [exact Hm | apply Hh | exact Hm].
Qed.

Lemma total_modify f : total (modify f).
Proof. intros st. apply finished_ret. Qed.

Lemma total_get {A} (f : State → A) : total (get f).
Proof. intros st. apply finished_ret. Qed.

Lemma total_raise {A} e : total (raise e : M A).
Proof. intros st. unfold finished. cbn. discriminate. Qed.

Lemma total_lift_opt {A} e (o : option A) : total (lift_opt e o).
Proof. destruct o; [apply total_ret | apply total_raise]. Qed.

Lemma total_load_users : total load_users.
Proof. intros st. unfold load_users. apply total_lift_opt. Qed.

Lemma total_load_messages : total load_messages.
Proof. intros st. unfold load_messages. apply total_lift_opt. Qed.

Lemma total_load_bulletins : total load_bulletins.
Proof. intros st. unfold load_bulletins. apply total_lift_opt. Qed.

Lemma total_utcnow : total utcnow.
Proof. intros st. apply finished_ret. Qed.

Lemma total_online_discard : total online_discard.
Proof. intros st. rewrite online_discard_run. apply finished_ret. Qed.

Lemma total_readline : total readline.
Proof.
  intros st. unfold readline, finished.
  destruct (reader (session st)); cbn; discriminate.
Qed.

Create HintDb total.
#[local] Hint Resolve total_load_users total_load_messages total_load_bulletins
  total_utcnow total_online_discard total_readline : total.

Ltac total_auto :=
  repeat first
    [ assumption
    | solve [auto 1 with total]
    | apply total_ret | apply total_raise | apply total_lift_opt
    | apply total_get
    | apply total_fmap | apply total_try_except
    | apply total_modify
    | apply total_bind; [| intros ?]
    | match goal with
      | |- total (if ?c then _ else _) => destruct c
      | |- total (match ?x with _ => _ end) => destruct x
      end ].

Lemma total_send s : total (send s).
Proof. apply total_modify. Qed.

Lemma total_getline prompt : total (getline prompt).
Proof. unfold getline. total_auto. Qed.
#[local] Hint Resolve total_send total_getline : total.

Lemma total_signin_attempts n : total (signin_attempts n).
Proof. induction n as [|n IH]; cbn [signin_attempts]; total_auto. Qed.
#[local] Hint Resolve total_signin_attempts : total.

Lemma total_signin : total signin.
Proof. unfold signin. total_auto. Qed.

Lemma total_signup_create name : total (signup_create name).
Proof. unfold signup_create. total_auto. Qed.

Lemma total_post_message subj lines : total (post_message subj lines).
Proof. unfold post_message. total_auto. Qed.

Lemma total_board_list : total board_list.
Proof. unfold board_list. total_auto. Qed.

Lemma total_board_read : total board_read.
Proof. unfold board_read. total_auto. Qed.

Lemma total_bulletins : total bulletins.
Proof. unfold bulletins. total_auto. Qed.

Lemma total_whos_online : total whos_online.
Proof. unfold whos_online. total_auto. Qed.

Lemma total_logoff : total logoff.
Proof. unfold logoff. total_auto. Qed.

Lemma total_cleanup : total cleanup.
Proof. unfold cleanup. total_auto. Qed.
#[local] Hint Resolve total_signin total_signup_create total_post_message
  total_board_list total_board_read total_bulletins total_whos_online
  total_logoff total_cleanup : total.

(** Each loop finishes when it has more fuel than there are lines
    left to read. *)
Lemma signup_loop_finished fuel :
  ∀ st, (length (reader (session st)) < fuel)%nat → finished (signup_loop fuel st).
Proof.
  induction fuel as [|fuel IH]; intros st Hlen; [lia |]. cbn [signup_loop].
  apply finished_getline. intros name st1 Hlt.
  destruct (truthy name) eqn:E; [| apply IH; lia].
  apply finished_bind;
    [apply total_signup_create | apply steps_signup_create, truthy_true_nonempty, E |].
  intros [|] st2 Hle; [apply finished_ret | apply IH; lia].
Qed.

Lemma read_body_finished fuel :
  ∀ lines st,
    (length (reader (session st)) < fuel)%nat → finished (read_body fuel lines st).
Proof.
  induction fuel as [|fuel IH]; intros lines st Hlen; [lia |]. cbn [read_body].
  apply finished_getline. intros line st1 Hlt.
  destruct (String.eqb line "."); [apply finished_ret | apply IH; lia].
Qed.

Lemma board_post_finished fuel st :
  (length (reader (session st)) ≤ fuel)%nat → finished (board_post fuel st).
Proof.
  intros Hlen. unfold board_post.
  apply finished_getline. intros subj st1 Hlt.
  apply finished_bind; [apply total_send | apply steps_send |]. intros _ st2 Hle2.
  apply finished_bind; [apply read_body_finished; lia | apply steps_read_body |].
  intros lines st3 _. apply total_post_message.
Qed.

Lemma message_board_finished fuel :
  ∀ st, (length (reader (session st)) < fuel)%nat → finished (message_board fuel st).
Proof.
  induction fuel as [|fuel IH]; intros st Hlen; [lia |]. cbn [message_board].
  apply finished_getline_fmap. intros ch st1 Hlt.
  destruct (String.eqb ch "l").
  { apply finished_bind; [apply total_board_list | apply steps_board_list |].
    intros _ st2 Hle. apply IH. lia. }
  destruct (String.eqb ch "r").
  { apply finished_bind; [apply total_board_read | apply steps_board_read |].
    intros _ st2 Hle. apply IH. lia. }
  destruct (String.eqb ch "p").
  { apply finished_bind; [apply board_post_finished; lia | apply steps_board_post |].
    intros _ st2 Hle. apply IH. lia. }
  destruct (String.eqb ch "b"); [apply finished_ret |].
  apply finished_bind; [apply total_send | apply steps_send |].
  intros _ st2 Hle. apply IH. lia.
Qed.

Lemma main_menu_finished fuel :
  ∀ st, (length (reader (session st)) < fuel)%nat → finished (main_menu fuel st).
Proof.
  induction fuel as [|fuel IH]; intros st Hlen; [lia |]. cbn [main_menu].
  rewrite run_bind. cbn. destruct (logged_in st); [| apply finished_ret].
  apply finished_getline_fmap. intros choice st1 Hlt.
  destruct (String.eqb choice "1").
  { apply finished_bind; [apply message_board_finished; lia | apply steps_message_board |].
    intros _ st2 Hle. apply IH. lia. }
  destruct (String.eqb choice "2").
  { apply finished_bind; [apply total_bulletins | apply steps_bulletins |].
    intros _ st2 Hle. apply IH. lia. }
  destruct (String.eqb choice "3").
  { apply finished_bind; [apply total_whos_online | apply steps_whos_online |].
    intros _ st2 Hle. apply IH. lia. }
  destruct (String.eqb choice "4"); [apply total_logoff |].
  apply finished_bind; [apply total_send | apply steps_send |].
  intros _ st2 Hle. apply IH. lia.
Qed.

Lemma login_finished fuel st :
  (length (reader (session st)) ≤ fuel)%nat → finished (login fuel st).
Proof.
  intros Hlen. unfold login.
  apply finished_bind; [apply total_send | apply steps_send |]. intros _ st1 Hle1.
  apply finished_bind; [apply total_send | apply steps_send |]. intros _ st2 Hle2.
  apply finished_getline_fmap. intros have st3 Hlt.
  destruct (startswith "n" have); [| apply total_signin].
  unfold signup.
  apply finished_bind; [apply total_send | apply steps_send |]. intros _ st4 Hle4.
  apply signup_loop_finished. lia.
Qed.

Lemma finished_try_finally m h st :
  finished (m st) → total h → finished (try_finally m h st).
Proof.
  intros Hm Hh. unfold try_finally.
  destruct (m st) as [[a | e |] st1]; [apply Hh | | exact Hm].
  specialize (Hh st1). destruct (h st1) as [[a | e' |] st2];
    [unfold finished; cbn; discriminate | exact Hh | exact Hh].
Qed.

Lemma finished_try_except_connection m st :
  finished (m st) → finished (try_except_connection m st).
Proof.
  intros Hm. unfold try_except_connection.
  destruct (m st) as [[a | [] |] st1]; try exact Hm.
  unfold finished. cbn. discriminate.
Qed.

(** [handle_client] never runs out of fuel when given more fuel
    than the client sends lines: the model then returns or raises
    as the Python code does. *)
Lemma handle_client_total fuel w lines :
  (length lines < fuel)%nat →
  finished (handle_client fuel (connect w lines)).
Proof.
  intros Hlen. unfold handle_client.
  apply finished_try_finally; [| apply total_cleanup].
  apply finished_try_except_connection.
  apply finished_bind; [apply login_finished; cbn; lia | apply steps_login |].
  intros _ st1 Hle. rewrite run_bind. cbn.
  destruct (logged_in st1); [| apply finished_ret].
  apply main_menu_finished. cbn in Hle. lia.
Qed.

(** *** Bulletins *)

Lemma load_bulletins_pure st : (load_bulletins st).2 = st.
Proof.
  unfold load_bulletins. destruct (BULLETINS_FILE (world st)); reflexivity.
Qed.

Lemma ensure_data_idempotent w : ensure_data (ensure_data w) = ensure_data w.
Proof.
  destruct w as [[u|] [m|] [b|] on ck]; reflexivity.
Qed.

(** C9.  On a first start, with no bulletin file, [ensure_data]
    writes the two default bulletins; when the file exists it is
    left as it is, and running [ensure_data] again changes nothing.
    [load_bulletins] changes no state and so returns the same list
    each time it is called, and no connection, whatever it sends,
    changes the bulletin file. *)
Theorem bulletins_seeded_once :
  (∀ w, BULLETINS_FILE w = None →
        BULLETINS_FILE (ensure_data w) = Some default_bulletins
        ∧ (1 ≤ length default_bulletins)%nat)
  ∧ (∀ w bulls, BULLETINS_FILE w = Some bulls →
                BULLETINS_FILE (ensure_data w) = Some bulls)
  ∧ (∀ w, ensure_data (ensure_data w) = ensure_data w)
  ∧ (∀ w s, BULLETINS_FILE w = None →
            load_bulletins (mkState (ensure_data w) s)
            = (Ret default_bulletins, mkState (ensure_data w) s))
  ∧ (∀ st, (load_bulletins st).2 = st
           ∧ load_bulletins (load_bulletins st).2 = load_bulletins st)
  ∧ (∀ fuel st,
       BULLETINS_FILE (world (handle_client fuel st).2) = BULLETINS_FILE (world st)
       ∧ ∀ s, (load_bulletins (mkState (world (handle_client fuel st).2) s)).1
              = (load_bulletins (mkState (world st) s)).1).
Proof.
  split; [| split; [| split; [| split; [| split]]]].
  - intros w H. unfold ensure_data. cbn. rewrite H. split; [reflexivity | cbn; lia].
  - intros w bulls H. unfold ensure_data. cbn. rewrite H. reflexivity.
  - apply ensure_data_idempotent.
  - intros w s H. unfold load_bulletins, ensure_data. cbn. rewrite H. reflexivity.
  - intros st. rewrite load_bulletins_pure. auto.
  - intros fuel st. pose proof (ev_bulletins _ _ (steps_handle_client fuel st)) as H.
    split; [exact H |]. intros s.
    unfold load_bulletins. cbn. rewrite H.
    destruct (BULLETINS_FILE (world st)); reflexivity.
Qed.

(** *** Presence over the life of a session *)

(** [signin_attempts] either leaves the user and [ONLINE] as they
    were, or returns with a user recorded and online. *)
Lemma signin_attempts_registers n :
  ∀ st r st',
    signin_attempts n st = (r, st') →
    (username (session st') = username (session st)
     ∧ ONLINE (world st') = ONLINE (world st))
    ∨ (r = Ret tt
       ∧ ∃ u, username (session st') = Some u ∧ u ∈ ONLINE (world st')).
Proof.
  induction n as [|n IH]; intros st r st' H.
  - rewrite signin_gives_up in H. injection H as _ <-. left. split; reflexivity.
  - destruct (reader (session st)) as [|a [|b rest]] eqn:Hr.
    + destruct st as [w [rd wr cl un]]. cbn in Hr. subst rd.
      cbn [signin_attempts] in H. run_m_in H.
      injection H as _ <-. left. split; reflexivity.
    + destruct st as [w [rd wr cl un]]. cbn in Hr. subst rd.
      cbn [signin_attempts] in H. run_m_in H.
      injection H as _ <-. left. split; reflexivity.
    + destruct (USERS_FILE (world st)) as [users|] eqn:Hu.
      * rewrite (signin_attempt n st users a b rest Hu Hr) in H.
        destruct (password_matches users (strip a) (strip b)).
        -- injection H as <- <-. right. split; [reflexivity |].
           exists (strip a). split; [reflexivity |].
           cbn -[strip]. sets.
        -- apply IH in H as [[H1 H2] | H]; [left | right; exact H].
           rewrite H1, H2. split; reflexivity.
      * destruct st as [[uf mf bf on ck] [rd wr cl un]]. cbn in Hr, Hu. subst rd uf.
        cbn [signin_attempts] in H. run_m_in H.
        injection H as _ <-. left. split; reflexivity.
Qed.

Lemma signup_create_registers name st st' :
  signup_create name st = (Ret true, st') →
  username (session st') = Some name ∧ name ∈ ONLINE (world st').
Proof.
  intros H.
  destruct (USERS_FILE (world st)) as [users|] eqn:Hu.
  - destruct (users !! name) as [r|] eqn:Hn.
    + rewrite (signup_create_taken st users name Hu) in H by eauto. discriminate H.
    + destruct (reader (session st)) as [|line rest] eqn:Hr.
      * destruct st as [[uf mf bf on ck] [rd wr cl un]]. cbn in Hu, Hr. subst uf rd.
        unfold signup_create in H. run_m_in H.
        destruct (decide (name ∈ dom users)); discriminate H.
      * rewrite (signup_create_fresh st users name line rest Hu Hn Hr) in H.
        injection H as <-. split; [reflexivity |]. cbn. sets.
  - destruct st as [[uf mf bf on ck] [rd wr cl un]]. cbn in Hu. subst uf.
    discriminate H.
Qed.

Lemma bind_ret_inv {A B} (m : M A) (f : A → M B) st b st' :
  (m ≫= f) st = (Ret b, st') →
  ∃ a st1, m st = (Ret a, st1) ∧ f a st1 = (Ret b, st').
Proof.
  rewrite run_bind. destruct (m st) as [[a | e |] st1]; intros H;
    [eauto | discriminate H | discriminate H].
Qed.

Lemma signup_loop_registers fuel :
  ∀ st st',
    signup_loop fuel st = (Ret tt, st') →
    ∃ u, username (session st') = Some u ∧ u ∈ ONLINE (world st').
Proof.
  induction fuel as [|fuel IH]; intros st st' H; [discriminate H |].
  cbn [signup_loop] in H.
  apply bind_ret_inv in H as (name & st1 & _ & H).
  destruct (truthy name); [| apply (IH _ _ H)].
  apply bind_ret_inv in H as ([|] & st2 & Hc & H).
  - injection H as <-. exists name. eapply signup_create_registers. exact Hc.
  - apply (IH _ _ H).
Qed.

Lemma not_in_discarded st u :
  username (session st) = Some u → u ∉ discarded st.
Proof. unfold discarded. intros ->. sets. Qed.

Lemma cleaned_up_twice st : cleaned_up (cleaned_up st) = cleaned_up st.
Proof.
  destruct st as [[uf mf bf on ck] [rd wr cl [u|]]]; unfold cleaned_up, discarded; cbn;
    [| reflexivity].
  assert (on ∖ {[u]} ∖ {[u]} = on ∖ {[u]}) as -> by sets. reflexivity.
Qed.

(** Whatever happened in the [try] block, the state that
    [handle_client] ends in is one left by the [finally] block. *)
Lemma try_finally_cleanup m st r st' :
  try_finally m cleanup st = (r, st') →
  r ≠ OutOfFuel →
  ∃ st1, st' = cleaned_up st1.
Proof.
  unfold try_finally. destruct (m st) as [[a | e |] st1]; rewrite ?cleanup_run.
  - intros [= _ <-] _. eauto.
  - intros [= _ <-] _. eauto.
  - intros [= <- _] H. exfalso. apply H. reflexivity.
Qed.

(** C2.  After a [signin] or a [signup] that returns with a user
    recorded, that user is in [ONLINE].  [logoff] and the cleanup of
    [handle_client] each return normally with the session's user
    absent from [ONLINE]; running the cleanup after [logoff], or
    twice, raises nothing and changes nothing more.  Any run of
    [handle_client] that is given enough fuel ends with the
    session's user absent from [ONLINE]. *)
Theorem presence_follows_session :
  (∀ w lines st' u,
     signin (connect w lines) = (Ret tt, st') →
     username (session st') = Some u →
     u ∈ ONLINE (world st'))
  ∧ (∀ fuel w lines st',
       signup fuel (connect w lines) = (Ret tt, st') →
       ∃ u, username (session st') = Some u ∧ u ∈ ONLINE (world st'))
  ∧ (∀ st u,
       username (session st) = Some u →
       logoff st = (Ret tt, logged_off st)
       ∧ (u ∉ ONLINE (world (logged_off st)))
       ∧ cleanup st = (Ret tt, cleaned_up st)
       ∧ (u ∉ ONLINE (world (cleaned_up st)))
       ∧ cleanup (logged_off st) = (Ret tt, logged_off st)
       ∧ cleanup (cleaned_up st) = (Ret tt, cleaned_up st))
  ∧ (∀ fuel w lines,
       (length lines < fuel)%nat →
       ∃ r st',
         handle_client fuel (connect w lines) = (r, st')
         ∧ r ≠ OutOfFuel
         ∧ ∀ u, username (session st') = Some u → u ∉ ONLINE (world st')).
Proof.
  split; [| split; [| split]].
  - intros w lines st' u H Hu. rewrite signin_run in H.
    apply signin_attempts_registers in H as [[H _] | (_ & u' & H1 & H2)].
    + rewrite Hu in H. discriminate H.
    + congruence.
  - intros fuel w lines st' H. unfold signup in H.
    apply bind_ret_inv in H as (_ & st1 & _ & H).
    apply (signup_loop_registers _ _ _ H).
  - intros st u Hu.
    split; [apply logoff_run |].
    split; [unfold logged_off; apply not_in_discarded, Hu |].
    split; [apply cleanup_run |].
    split; [apply not_in_discarded, Hu |].
    rewrite !cleanup_run. unfold logged_off. rewrite !cleaned_up_twice. auto.
  - intros fuel w lines Hlen.
    pose proof (handle_client_total fuel w lines Hlen) as Hfin.
    destruct (handle_client fuel (connect w lines)) as [r st'] eqn:H.
    exists r, st'. split; [reflexivity |]. split; [exact Hfin |].
    intros u Hu. unfold handle_client in H.
    apply try_finally_cleanup in H as [st1 ->]; [| exact Hfin].
    apply not_in_discarded. exact Hu.
Qed.


End BBS.

(** ** The properties at sample inputs

    The library functions are instantiated by [wrap_whole] and
    [iso_counter]; the worlds are [fresh_world] (first start) and
    [alice_world] (alice has an account). *)

(** alice signs in on her first attempt and is online. *)
Lemma presence_follows_session_witness :
  let st := (signin (connect alice_world ["alice"; "pw1"])).2 in
  signin (connect alice_world ["alice"; "pw1"]) = (Ret tt, st)
  ∧ username (session st) = Some "alice"
  ∧ "alice" ∈ ONLINE (world st).
Proof.
  intros st. split; [reflexivity |]. split; [reflexivity |].
  apply (proj1 (presence_follows_session wrap_whole iso_counter)
           alice_world ["alice"; "pw1"] st "alice"); reflexivity.
Defined.

(** One wrong pair, then the right one; and three wrong pairs. *)
Lemma signin_allows_three_attempts_witness :
  USERS_FILE alice_world = Some alice_store
  ∧ alice_store !! "" = None
  ∧ (∃ st',
       signin (connect alice_world ["bob"; "x"; "alice"; "pw1"; "1"]) = (Ret tt, st')
       ∧ username (session st') = Some "alice"
       ∧ logged_in st' = true
       ∧ reader (session st') = ["1"])
  ∧ (∃ st',
       signin (connect alice_world
                 ["alice"; "a"; "alice"; "b"; "alice"; "c"; "alice"; "pw1"])
       = (Ret tt, st')
       ∧ username (session st') = None
       ∧ closed (session st') = true
       ∧ reader (session st') = ["alice"; "pw1"]).
Proof.
  destruct (signin_allows_three_attempts alice_world alice_store eq_refl eq_refl)
    as (Hfirst & Hthree & _).
  split; [reflexivity |]. split; [reflexivity |]. split.
  - destruct (Hfirst [("bob", "x")] "alice" "pw1" ["1"])
      as (st' & Hrun & Hname & _ & Hin & _ & Hrest & _).
    + cbn. lia.
    + repeat constructor.
    + reflexivity.
    + exists st'. auto.
  - destruct (Hthree [("alice", "a"); ("alice", "b"); ("alice", "c")] ["alice"; "pw1"])
      as (st' & Hrun & Hname & _ & Hclosed & _ & Hrest & _).
    + reflexivity.
    + repeat constructor.
    + exists st'. auto.
Defined.

(** The stored pair is accepted; a name or a password that differs in
    case is not. *)
Lemma verify_iff_exact_record_witness :
  password_matches alice_store "alice" "pw1" = true
  ∧ password_matches alice_store "Alice" "pw1" = false
  ∧ password_matches alice_store "alice" "PW1" = false.
Proof.
  split; [| split].
  - apply (proj1 (verify_iff_exact_record alice_store "alice" "pw1")).
    exists (mkUser "pw1" "2024-01-01T00:00:00"). split; reflexivity.
  - destruct (password_matches alice_store "Alice" "pw1") eqn:E; [| reflexivity].
    apply (proj1 (verify_iff_exact_record alice_store "Alice" "pw1")) in E
      as (r & Hr & _).
    discriminate Hr.
  - destruct (password_matches alice_store "alice" "PW1") eqn:E; [| reflexivity].
    apply (proj1 (verify_iff_exact_record alice_store "alice" "PW1")) in E
      as (r & Hr & Hp).
    injection Hr as <-. discriminate Hp.
Defined.

(** bob is created once; Alice, which differs from alice in case, is
    free. *)
Lemma signup_creates_exactly_once_witness :
  let st := connect alice_world ["pw2"; "1"] in
  let st1 := account_created iso_counter st alice_store ["1"] "bob" "pw2" in
  USERS_FILE (world st) = Some alice_store
  ∧ alice_store !! "bob" = None
  ∧ alice_store !! "Alice" = None
  ∧ signup_create iso_counter "bob" st = (Ret true, st1)
  ∧ signup_create iso_counter "bob" st1 = (Ret false, name_taken st1)
  ∧ USERS_FILE (world st1)
    = Some (<["bob" := mkUser "pw2" (iso_counter 1)]> alice_store).
Proof.
  intros st st1.
  destruct (signup_creates_exactly_once iso_counter st alice_store "bob" "pw2" ["1"])
    as (H1 & H2 & _ & H4 & _); try reflexivity.
  repeat split; first [reflexivity | assumption].
Defined.

(** Two posts on the empty board of a first start. *)
Lemma board_is_append_only_witness :
  let st := mkState fresh_world (mkSession [] [] false (Some "alice")) in
  MESSAGES_FILE (world st) = Some []
  ∧ ∃ st' msgs,
      post_all iso_counter [("hi", ["line1"]); ("", ["a"; "b"])] st = (Ret tt, st')
      ∧ MESSAGES_FILE (world st') = Some msgs
      ∧ length msgs = 2%nat
      ∧ subject <$> msgs = ["hi"; "(no subject)"].
Proof.
  intros st. split; [reflexivity |].
  destruct (proj1 (board_is_append_only wrap_whole iso_counter) st
              [("hi", ["line1"]); ("", ["a"; "b"])] eq_refl)
    as (st' & msgs & Hrun & Hfile & Hlen & Hsubj & _).
  exists st', msgs. auto.
Defined.

(** A post with an empty subject line and two body lines. *)
Lemma post_stores_subject_and_body_witness :
  let st := mkState alice_world
              (mkSession [" "; "line1"; " line2 "; "."; "b"] [] false (Some "alice")) in
  MESSAGES_FILE (world st) = Some []
  ∧ ∃ st' m,
      board_post iso_counter 3 st = (Ret tt, st')
      ∧ MESSAGES_FILE (world st') = Some [m]
      ∧ subject m = "(no subject)"
      ∧ body m = "line1" +:+ PyStr.nl +:+ "line2".
Proof.
  intros st. split; [reflexivity |].
  destruct (post_stores_subject_and_body iso_counter 3 st [] " "
              ["line1"; " line2 "] "." ["b"])
    as (st' & m & Hrun & Hfile & Hempty & _ & Hbody & _).
  - reflexivity.
  - reflexivity.
  - repeat constructor; vm_compute; discriminate.
  - reflexivity.
  - cbn. lia.
  - exists st', m. split; [exact Hrun |]. split; [exact Hfile |].
    split; [apply Hempty; reflexivity | exact Hbody].
Defined.

(** alice signs in from two connections; the first logs off. *)
Lemma presence_is_a_set_witness :
  USERS_FILE alice_world = Some alice_store
  ∧ password_matches alice_store "alice" "pw1" = true
  ∧ ∃ st1 st2 st1',
      signin (connect alice_world ["alice"; "pw1"]) = (Ret tt, st1)
      ∧ signin (connect (world st1) ["alice"; "pw1"; "3"]) = (Ret tt, st2)
      ∧ ONLINE (world st2) = ONLINE (world st1)
      ∧ logoff (on_world (world st2) st1) = (Ret tt, st1')
      ∧ ("alice" ∉ ONLINE (world st1'))
      ∧ username (session st2) = Some "alice".
Proof.
  split; [reflexivity |]. split; [reflexivity |].
  destruct (proj1 (proj2 presence_is_a_set) alice_world alice_store "alice"
              "alice" "pw1" [] "alice" "pw1" ["3"])
    as (st1 & st2 & st1' & H1 & H2 & _ & H4 & _ & _ & H7 & H8 & H9 & _);
    try reflexivity.
  exists st1, st2, st1'. auto 10.
Defined.

(** A first start seeds the two default bulletins. *)
Lemma bulletins_seeded_once_witness :
  BULLETINS_FILE (mkWorld None None None ∅ 0) = None
  ∧ BULLETINS_FILE fresh_world = Some default_bulletins
  ∧ BULLETINS_FILE (ensure_data fresh_world) = Some default_bulletins.
Proof.
  destruct (bulletins_seeded_once wrap_whole iso_counter) as (Hseed & Hkeep & _).
  split; [reflexivity |]. split.
  - apply (Hseed (mkWorld None None None ∅ 0)). reflexivity.
  - apply (Hkeep fresh_world). reflexivity.
Defined.

(** " No" goes to signup, "" goes to signin. *)
Lemma login_routes_on_leading_n_witness :
  let st := connect fresh_world [" No"; "alice"] in
  let st' := connect fresh_world [""; "alice"] in
  reader (session st) = [" No"; "alice"]
  ∧ login iso_counter 5 st = signup iso_counter 5 (after_question st ["alice"])
  ∧ login iso_counter 5 st' = signin (after_question st' ["alice"]).
Proof.
  intros st st'. split; [reflexivity |]. split.
  - apply (proj1 (login_routes_on_leading_n iso_counter 5 st " No" ["alice"] eq_refl)).
  - apply (proj2 (proj2 (login_routes_on_leading_n iso_counter 5 st' "" ["alice"] eq_refl))).
    reflexivity.
Defined.
